(** * L4CasADi: the build pipeline of [l4casadi/l4casadi.py]

    A shallow embedding of the [L4CasADi] class.  The class is glue code
    between PyTorch, CasADi, the file system and the C++ toolchain; every
    such collaborator is an oracle of the environment record [Env], every
    call to a collaborator is recorded as an [event], and the methods are
    written in a small monad that threads the handle ([self]), the event
    log and Python exceptions. *)

From Stdlib Require Import String Ascii ZArith List Bool Arith Lia.
From Stdlib Require Import DecimalString.
Import ListNotations.

Set Implicit Arguments.

Local Open Scope list_scope.
Local Open Scope string_scope.

(** ** Python exceptions *)

Inductive exn : Type :=
| ValueError (msg : string)
| RuntimeError (msg : string)
| IndexError (msg : string)
| TypeError (msg : string)
| Exception (msg : string)
| ForeignError (origin : string).
(* [ForeignError]: anything raised from inside a collaborator (torch,
   casadi, os, pathlib, the template renderer). *)

Inductive Result (A : Type) : Type :=
| Ok (a : A)
| Raise (e : exn).
Arguments Ok {A} a.
Arguments Raise {A} e.

(** ** Data *)

(* pathlib values are kept symbolic; how they print is the library's
   business ([as_posix] and [path_str] in [Env]). *)
Inductive Path : Type :=
| PathOf (s : string)                 (* pathlib.Path(s) *)
| Div (p : Path) (s : string)          (* p / s *)
| Absolute (p : Path)                  (* p.absolute() *)
| Files (pkg : string).                (* importlib.resources.files(pkg) *)

(* A concrete tensor: only its shape and device matter here (the pipeline
   only ever creates zero-filled tensors and reads [.shape]). *)
Record Tensor : Type := { t_shape : list nat; t_device : string }.

Definition torch_zeros (shape : list nat) : Tensor :=
  {| t_shape := shape; t_device := "cpu" |}.

(* A CasADi matrix expression (MX, SX or DM) handed in by the caller:
   opaque except for its two-dimensional shape. *)
Record CsMatrix : Type := { cs_repr : string; shape : nat * nat }.

(* cs.MX.sym(label, rows, cols) *)
Definition MX_sym (label : string) (rows cols : nat) : CsMatrix :=
  {| cs_repr := label; shape := (rows, cols) |}.

(* cs.external(name, library_path) *)
Record CsFunction : Type := { cs_name : string; cs_lib : string }.

(* What [forward] hands back: the model applied symbolically. *)
Inductive CsOut : Type :=
| NaiveOut (arg : CsMatrix)                        (* self.model(inp) *)
| ExternalOut (f : CsFunction) (arg : CsMatrix).   (* self._cs_fun(inp) *)

(* Things torch can serialize: the wrapped model, or an fx graph returned by
   make_fx for its Jacobian / Hessian. *)
Inductive Derivative : Type := Jacrev | Hessian.

Inductive TorchModule : Type :=
| UserModel
| FxGraph (d : Derivative) (inp : Tensor).

Inductive ScriptModule : Type :=
| Scripted (m : TorchModule)                   (* ts_compile(m) *)
| Traced (m : TorchModule) (inp : Tensor).     (* torch.jit.trace(m, inp) *)

(* Values of the template dictionary. *)
Inductive Value : Type :=
| VStr (s : string)
| VInt (n : nat).

(* The [device] constructor argument: Union[torch.device, Text]. *)
Inductive DeviceArg : Type :=
| DevText (s : string)
| DevObj (type : string) (index : option nat).

(* The two isinstance tests of the constructor. *)
Record Model : Type := { is_naive_module : bool; is_nn_module : bool }.

(** ** Events: every call that leaves the handle *)

Inductive event : Type :=
| EvModuleEvalTo (dev : DeviceArg)
| EvFreezeParameters
| EvPathExists (p : Path)
| EvMakedirs (p : Path)
| EvTensorTo (x : Tensor) (dev : string)
| EvModelCall (x : Tensor)
| EvNaiveModelCall (x : CsMatrix)
| EvCsGenerate (fname : string) (inp : CsMatrix) (file : string)
| EvShutilMove (src dst : string)
| EvMakeFx (d : Derivative) (x : Tensor)
| EvJitTrace (m : TorchModule) (x : Tensor)
| EvTsCompile (m : TorchModule)
| EvSave (s : ScriptModule) (file : string)
| EvPrint (msg : string)
| EvRender (variables : list (string * Value)) (out_file : string)
| EvOsSystem (cmd : string)
| EvCsExternal (fname lib : string)
| EvCsCall (f : CsFunction) (x : CsMatrix).

(** ** The environment: how the collaborators behave during one call

    An oracle of type [option exn] answers [None] when the call returns and
    [Some e] when it raises [e].  The environment is fixed for the duration
    of one top-level call; between two calls the caller may have changed the
    world (installed a toolchain, removed a file), so two calls may run
    under two environments. *)

Record Env : Type := {
  (* pathlib / os *)
  as_posix : Path -> string;
  path_str : Path -> string;
  path_exists : Path -> bool;
  makedirs_error : Path -> option exn;
  shutil_move_error : string -> string -> option exn;
  os_system : string -> Z;
  platform_system : string;
  (* torch *)
  module_to_error : DeviceArg -> option exn;
  tensor_to_error : string -> option exn;
  model_call : Tensor -> Result Tensor;
  make_fx_error : Derivative -> Tensor -> option exn;
  jit_trace_error : TorchModule -> Tensor -> option exn;
  ts_compile_error : TorchModule -> option exn;
  save_error : ScriptModule -> string -> option exn;
  _GLIBCXX_USE_CXX11_ABI : bool;
  (* casadi *)
  naive_model_error : CsMatrix -> option exn;
  cs_generate_error : string -> CsMatrix -> string -> option exn;
  cs_external_error : string -> string -> option exn;
  cs_call_error : CsFunction -> CsMatrix -> option exn;
  (* l4casadi.template_generation *)
  render_error : list (string * Value) -> string -> option exn
}.

(** ** The handle *)

Record L4CasADi : Type := {
  model : Model;
  naive : bool;
  name : string;
  has_batch : bool;
  device : string;
  build_dir : Path;
  _model_search_path : option string;
  _cs_fun : option CsFunction;
  _built : bool;
  _with_jacobian : bool;
  _with_hessian : bool
}.

Definition set_built (b : bool) (self : L4CasADi) : L4CasADi :=
  {| model := model self; naive := naive self; name := name self;
     has_batch := has_batch self; device := device self;
     build_dir := build_dir self;
     _model_search_path := _model_search_path self;
     _cs_fun := _cs_fun self; _built := b;
     _with_jacobian := _with_jacobian self;
     _with_hessian := _with_hessian self |}.

Definition set_cs_fun (f : option CsFunction) (self : L4CasADi) : L4CasADi :=
  {| model := model self; naive := naive self; name := name self;
     has_batch := has_batch self; device := device self;
     build_dir := build_dir self;
     _model_search_path := _model_search_path self;
     _cs_fun := f; _built := _built self;
     _with_jacobian := _with_jacobian self;
     _with_hessian := _with_hessian self |}.

(** ** The monad: handle state, event log, exceptions

    A raised exception keeps the state and the events reached so far, as in
    Python: nothing is rolled back. *)

Record Run (A : Type) : Type := {
  result : Result A;
  self_after : L4CasADi;
  events : list event
}.

Definition M (A : Type) : Type := L4CasADi -> Run A.

Definition ret {A} (a : A) : M A :=
  fun self => {| result := Ok a; self_after := self; events := [] |}.

Definition raise {A} (e : exn) : M A :=
  fun self => {| result := Raise e; self_after := self; events := [] |}.

Definition bind {A B} (m : M A) (k : A -> M B) : M B :=
  fun self =>
    let r := m self in
    match result r with
    | Ok a =>
        let r' := k a (self_after r) in
        {| result := result r'; self_after := self_after r';
           events := (events r ++ events r')%list |}
    | Raise e =>
        {| result := Raise e; self_after := self_after r;
           events := events r |}
    end.

(* try: body / except: handler   (a bare except, catching everything) *)
Definition try_except {A} (body handler : M A) : M A :=
  fun self =>
    let r := body self in
    match result r with
    | Ok _ => r
    | Raise _ =>
        let r' := handler (self_after r) in
        {| result := result r'; self_after := self_after r';
           events := (events r ++ events r')%list |}
    end.

Definition get_self : M L4CasADi :=
  fun self => {| result := Ok self; self_after := self; events := [] |}.

Definition modify (f : L4CasADi -> L4CasADi) : M unit :=
  fun self => {| result := Ok tt; self_after := f self; events := [] |}.

(* A call to a collaborator: logged, then it returns or raises. *)
Definition call {A} (ev : event) (outcome : Result A) : M A :=
  fun self => {| result := outcome; self_after := self; events := [ev] |}.

Definition outcome_of {A} (err : option exn) (a : A) : Result A :=
  match err with
  | None => Ok a
  | Some e => Raise e
  end.

Declare Scope py_scope.
Delimit Scope py_scope with py.
Notation "x <- c ;; k" := (bind c (fun x => k))
  (at level 61, c at next level, right associativity) : py_scope.
Notation "' pat <- c ;; k" := (bind c (fun x => match x with pat => k end))
  (at level 61, pat pattern, c at next level, right associativity) : py_scope.
Notation "c ;; k" := (bind c (fun _ => k))
  (at level 61, right associativity) : py_scope.
Local Open Scope py_scope.

Definition when (b : bool) (m : M unit) : M unit :=
  if b then m else ret tt.

#[global] Arguments bind {A B} m k self : simpl never.
#[global] Arguments try_except {A} body handler self : simpl never.

(* The run [r], preceded by the events [pre]. *)
Definition prepend {A} (pre : list event) (r : Run A) : Run A :=
  {| result := result r; self_after := self_after r;
     events := (pre ++ events r)%list |}.

(** ** Small Python helpers *)

Definition nl : string := String "010"%char EmptyString.

(* str(n) for a non-negative int *)
Definition nat_str (n : nat) : string := NilEmpty.string_of_uint (Nat.to_uint n).

Definition is_none {A} (o : option A) : bool :=
  match o with
  | None => true
  | Some _ => false
  end.

(* t[-1] on a tuple *)
Definition index_last (t : list nat) : M nat :=
  match rev t with
  | x :: _ => ret x
  | [] => raise (IndexError "tuple index out of range")
  end.

(* t[0] on a tuple *)
Definition index_0 (t : list nat) : M nat :=
  match t with
  | x :: _ => ret x
  | [] => raise (IndexError "tuple index out of range")
  end.

(* t[-2:] *)
Definition slice_last_two (t : list nat) : list nat :=
  skipn (List.length t - 2) t.

(* a, b = t *)
Definition unpack_2 (t : list nat) : M (nat * nat) :=
  match t with
  | [a; b] => ret (a, b)
  | _ =>
      if (List.length t <? 2)%nat
      then raise (ValueError ("not enough values to unpack (expected 2, got "
                              ++ nat_str (List.length t) ++ ")"))
      else raise (ValueError "too many values to unpack (expected 2)")
  end.

Definition py_bool_literal (b : bool) : string :=
  if b then "true" else "false".

(** ** The methods of [L4CasADi] *)

Section Methods.

Variable env : Env.

(* --- collaborators, as calls ------------------------------------------- *)

Definition print (msg : string) : M unit :=
  call (EvPrint msg) (Ok tt).

Definition tensor_to (x : Tensor) (dev : string) : M Tensor :=
  call (EvTensorTo x dev)
       (outcome_of (tensor_to_error env dev)
                   {| t_shape := t_shape x; t_device := dev |}).

Definition self_model (x : Tensor) : M Tensor :=
  call (EvModelCall x) (model_call env x).

Definition self_model_sym (x : CsMatrix) : M CsOut :=
  call (EvNaiveModelCall x) (outcome_of (naive_model_error env x) (NaiveOut x)).

Definition torch_jit_trace (m : TorchModule) (x : Tensor) : M ScriptModule :=
  call (EvJitTrace m x) (outcome_of (jit_trace_error env m x) (Traced m x)).

Definition ts_compile (m : TorchModule) : M ScriptModule :=
  call (EvTsCompile m) (outcome_of (ts_compile_error env m) (Scripted m)).

Definition save (s : ScriptModule) (file : string) : M unit :=
  call (EvSave s file) (outcome_of (save_error env s file) tt).

Definition make_fx (d : Derivative) (x : Tensor) : M TorchModule :=
  call (EvMakeFx d x) (outcome_of (make_fx_error env d x) (FxGraph d x)).

Definition render_casadi_c_template
    (variables : list (string * Value)) (out_file : string) : M unit :=
  call (EvRender variables out_file)
       (outcome_of (render_error env variables out_file) tt).

Definition cs_external (fname lib : string) : M CsFunction :=
  call (EvCsExternal fname lib)
       (outcome_of (cs_external_error env fname lib)
                   {| cs_name := fname; cs_lib := lib |}).

Definition cs_call (f : CsFunction) (x : CsMatrix) : M CsOut :=
  call (EvCsCall f x) (outcome_of (cs_call_error env f x) (ExternalOut f x)).

(* --- module level ------------------------------------------------------ *)

Definition dynamic_lib_file_ending : string :=
  if String.eqb (platform_system env) "Darwin" then ".dylib" else ".so".

(* --- __init__ ---------------------------------------------------------- *)

Definition device_text (d : DeviceArg) : string :=
  match d with
  | DevText s => s
  | DevObj type index =>
      type ++ ":" ++ match index with
                     | Some i => nat_str i
                     | None => "None"
                     end
  end.

Definition __init__
    (model0 : Model) (model_expects_batch_dim : bool) (device0 : DeviceArg)
    (name0 : string) (build_dir0 : string) (model_search_path : option string)
    (with_jacobian with_hessian : bool) : Result L4CasADi * list event :=
  let self :=
    {| model := model0;
       naive := is_naive_module model0;
       name := name0;
       has_batch := model_expects_batch_dim;
       device := device_text device0;
       build_dir := PathOf build_dir0;
       _model_search_path := model_search_path;
       _cs_fun := None;
       _built := false;
       _with_jacobian := with_jacobian;
       _with_hessian := with_hessian |} in
  if is_nn_module model0 then
    match module_to_error env device0 with
    | Some e => (Raise e, [EvModuleEvalTo device0])
    | None => (Ok self, [EvModuleEvalTo device0; EvFreezeParameters])
    end
  else (Ok self, []).

(* --- shared_lib_dir (property) ----------------------------------------- *)

Definition shared_lib_dir (self : L4CasADi) : string :=
  as_posix env (Absolute (build_dir self)).

(* --- maybe_make_generation_dir ----------------------------------------- *)

Definition maybe_make_generation_dir : M unit :=
  self <- get_self;;
  ex <- call (EvPathExists (build_dir self))
             (Ok (path_exists env (build_dir self)));;
  when (negb ex)
    (call (EvMakedirs (build_dir self))
          (outcome_of (makedirs_error env (build_dir self)) tt)).

(* --- _load_built_library_as_external_cs_fun ---------------------------- *)

Definition not_built_msg : string :=
  "L4CasADi model has not been built yet. Call `build` first.".

Definition _load_built_library_as_external_cs_fun : M unit :=
  self <- get_self;;
  when (negb (_built self)) (raise (RuntimeError not_built_msg));;
  f <- cs_external (name self)
         (path_str env (Div (build_dir self) ("lib" ++ name self))
          ++ dynamic_lib_file_ending);;
  modify (set_cs_fun (Some f)).

(* --- _generate_cpp_function_template ----------------------------------- *)

Definition gen_params (self : L4CasADi) (model_path : string)
    (rows cols rows_out cols_out : nat) (has_jac has_hess : bool)
    : list (string * Value) :=
  [ ("model_path", VStr model_path);
    ("device", VStr (device self));
    ("name", VStr (name self));
    ("rows_in", VInt rows);
    ("cols_in", VInt cols);
    ("rows_out", VInt rows_out);
    ("cols_out", VInt cols_out);
    ("has_jac", VStr (if has_jac then "true" else "false"));
    ("has_hess", VStr (if has_hess then "true" else "false"));
    ("model_expects_batch_dim",
       VStr (if has_batch self then "true" else "false")) ].

Definition _generate_cpp_function_template
    (rows cols : nat) (has_jac has_hess : bool) : M unit :=
  self <- get_self;;
  '(rows_out, cols_out) <-
    (if has_batch self then
       x <- tensor_to (torch_zeros [1; rows]) (device self);;
       y <- self_model x;;
       rows_out <- index_last (t_shape y);;
       ret (rows_out, 1)
     else
       x <- tensor_to (torch_zeros [rows; cols]) (device self);;
       y <- self_model x;;
       let out_shape := t_shape y in
       if (List.length out_shape =? 1)%nat then
         rows_out <- index_0 out_shape;;
         ret (rows_out, 1)
       else
         unpack_2 (slice_last_two out_shape));;
  let model_path :=
    match _model_search_path self with
    | None => as_posix env (Absolute (build_dir self))
    | Some p => p
    end in
  render_casadi_c_template
    (gen_params self model_path rows cols rows_out cols_out has_jac has_hess)
    (as_posix env (Div (build_dir self) (name self ++ ".cpp"))).

(* --- compile ----------------------------------------------------------- *)

Definition link_libl4casadi (self : L4CasADi) : string :=
  if negb (naive self) then " -ll4casadi" else "".

Definition os_cmd (self : L4CasADi) : string :=
  let file_dir := Files "l4casadi" in
  let include_dir := Div (Files "l4casadi") "include" in
  let lib_dir := Div file_dir "lib" in
  let soname :=
    if String.eqb (platform_system env) "Darwin"
    then "install_name" else "soname" in
  let cxx11_abi := if _GLIBCXX_USE_CXX11_ABI env then 1 else 0 in
  "gcc"
  ++ " -fPIC -shared"
  ++ " " ++ path_str env (Div (build_dir self) (name self)) ++ ".cpp"
  ++ " -o " ++ path_str env (Div (build_dir self) ("lib" ++ name self))
            ++ dynamic_lib_file_ending
  ++ " -I" ++ path_str env include_dir ++ " -L" ++ path_str env lib_dir
  ++ " -Wl,-" ++ soname ++ ",lib" ++ name self ++ dynamic_lib_file_ending
  ++ link_libl4casadi self
  ++ " -lstdc++ -std=c++17"
  ++ " -D_GLIBCXX_USE_CXX11_ABI=" ++ nat_str cxx11_abi.

Definition compilation_failed (cmd : string) : exn :=
  Exception ("Compilation failed!" ++ nl ++ nl
             ++ "Attempted to execute OS command:" ++ nl ++ cmd ++ nl ++ nl).

Definition compile : M unit :=
  self <- get_self;;
  let cmd := os_cmd self in
  status <- call (EvOsSystem cmd) (Ok (os_system env cmd));;
  when (negb (status =? 0)%Z) (raise (compilation_failed cmd)).

(* --- tracing and serialization ----------------------------------------- *)

Definition _trace_jac_model (inp : Tensor) : M TorchModule :=
  make_fx Jacrev inp.

Definition _trace_hess_model (inp : Tensor) : M TorchModule :=
  make_fx Hessian inp.

(* The body either falls through ([None]) or returns early ([Some v]). *)
Definition _jit_compile_and_save
    (m : TorchModule) (file_path : string) (dummy_inp : Tensor) : M bool :=
  early <-
    try_except
      (s <- ts_compile m;; save s file_path;; ret None)
      (try_except
         (s <- torch_jit_trace m dummy_inp;; save s file_path;; ret None)
         (ret (Some false)));;
  match early with
  | Some v => ret v
  | None => ret true
  end.

Definition export_torch_traces (rows cols : nat) : M (bool * bool) :=
  self <- get_self;;
  let d_inp :=
    if has_batch self then torch_zeros [1; rows] else torch_zeros [rows; cols] in
  d_inp <- tensor_to d_inp (device self);;
  let out_folder := build_dir self in
  fwd <- torch_jit_trace UserModel d_inp;;
  save fwd (as_posix env (Div out_folder (name self ++ "_forward.pt")));;
  exported_jacrev <-
    (if _with_jacobian self then
       jac_model <- _trace_jac_model d_inp;;
       _jit_compile_and_save jac_model
         (as_posix env (Div out_folder (name self ++ "_jacrev.pt"))) d_inp
     else ret false);;
  exported_hess <-
    (if _with_hessian self then
       hess_model <-
         try_except (h <- _trace_hess_model d_inp;; ret (Some h)) (ret None);;
       match hess_model with
       | Some h =>
           _jit_compile_and_save h
             (as_posix env (Div out_folder (name self ++ "_hess.pt"))) d_inp
       | None => ret false
       end
     else ret false);;
  ret (exported_jacrev, exported_hess).

(* --- generate ---------------------------------------------------------- *)

Definition jac_diagnostic : string :=
  "Jacobian trace could not be generated."
  ++ " First-order sensitivities will not be available in CasADi.".

Definition hess_diagnostic : string :=
  "Hessian trace could not be generated."
  ++ " Second-order sensitivities will not be available in CasADi.".

Definition generate (inp : CsMatrix) : M unit :=
  let '(rows, cols) := shape inp in
  '(has_jac, has_hess) <- export_torch_traces rows cols;;
  self <- get_self;;
  when (negb has_jac && _with_jacobian self) (print jac_diagnostic);;
  when (negb has_hess && _with_hessian self) (print hess_diagnostic);;
  _generate_cpp_function_template rows cols has_jac has_hess.

(* --- build ------------------------------------------------------------- *)

Definition build (inp : CsMatrix) : M unit :=
  maybe_make_generation_dir;;
  self <- get_self;;
  (if naive self then
     let '(rows, cols) := shape inp in
     let inp_sym := MX_sym "inp" rows cols in
     out_sym <- self_model_sym inp_sym;;
     call (EvCsGenerate (name self) inp_sym (name self ++ ".cpp"))
          (outcome_of
             (cs_generate_error env (name self) inp_sym (name self ++ ".cpp"))
             tt);;
     let dst := as_posix env (Div (build_dir self) (name self ++ ".cpp")) in
     call (EvShutilMove (name self ++ ".cpp") dst)
          (outcome_of (shutil_move_error env (name self ++ ".cpp") dst) tt)
   else
     generate inp);;
  compile;;
  modify (set_built true).

(* --- forward / __call__ ------------------------------------------------ *)

Definition batch_msg : string :=
  "For batched PyTorch models only vector inputs are allowed.".

Definition forward (inp : CsMatrix) : M CsOut :=
  self <- get_self;;
  when (has_batch self)
    (when (negb (snd (shape inp) =? 1)%nat) (raise (ValueError batch_msg)));;
  if naive self then
    self_model_sym inp
  else
    when (negb (_built self)) (build inp);;
    self <- get_self;;
    when (is_none (_cs_fun self)) _load_built_library_as_external_cs_fun;;
    self <- get_self;;
    match _cs_fun self with
    | Some f => cs_call f inp
    | None => raise (TypeError "'NoneType' object is not callable")
    end.

Definition __call__ (inp : CsMatrix) : M CsOut := forward inp.

End Methods.

(** ** Concrete worlds used in the scenarios below *)

Module Scenario.

(* A POSIX rendering of paths, with the working directory at [/w]. *)
Fixpoint posix (p : Path) : string :=
  match p with
  | PathOf s => s
  | Div q s => posix q ++ "/" ++ s
  | Absolute q => "/w/" ++ posix q
  | Files pkg => "/site-packages/" ++ pkg
  end.

(* Everything works; the wrapped model is the identity (output shape =
   input shape); the build directory does not exist yet. *)
Definition healthy : Env :=
  {| as_posix := posix;
     path_str := posix;
     path_exists := fun _ => false;
     makedirs_error := fun _ => None;
     shutil_move_error := fun _ _ => None;
     os_system := fun _ => 0%Z;
     platform_system := "Linux";
     module_to_error := fun _ => None;
     tensor_to_error := fun _ => None;
     model_call := fun x => Ok x;
     make_fx_error := fun _ _ => None;
     jit_trace_error := fun _ _ => None;
     ts_compile_error := fun _ => None;
     save_error := fun _ _ => None;
     _GLIBCXX_USE_CXX11_ABI := true;
     naive_model_error := fun _ => None;
     cs_generate_error := fun _ _ _ => None;
     cs_external_error := fun _ _ => None;
     cs_call_error := fun _ _ => None;
     render_error := fun _ _ => None |}.

Definition with_make_fx_error (f : Derivative -> Tensor -> option exn)
    (e : Env) : Env :=
  {| as_posix := as_posix e; path_str := path_str e;
     path_exists := path_exists e; makedirs_error := makedirs_error e;
     shutil_move_error := shutil_move_error e; os_system := os_system e;
     platform_system := platform_system e;
     module_to_error := module_to_error e;
     tensor_to_error := tensor_to_error e; model_call := model_call e;
     make_fx_error := f;
     jit_trace_error := jit_trace_error e;
     ts_compile_error := ts_compile_error e; save_error := save_error e;
     _GLIBCXX_USE_CXX11_ABI := _GLIBCXX_USE_CXX11_ABI e;
     naive_model_error := naive_model_error e;
     cs_generate_error := cs_generate_error e;
     cs_external_error := cs_external_error e;
     cs_call_error := cs_call_error e; render_error := render_error e |}.

Definition with_jit_trace_error (f : TorchModule -> Tensor -> option exn)
    (e : Env) : Env :=
  {| as_posix := as_posix e; path_str := path_str e;
     path_exists := path_exists e; makedirs_error := makedirs_error e;
     shutil_move_error := shutil_move_error e; os_system := os_system e;
     platform_system := platform_system e;
     module_to_error := module_to_error e;
     tensor_to_error := tensor_to_error e; model_call := model_call e;
     make_fx_error := make_fx_error e;
     jit_trace_error := f;
     ts_compile_error := ts_compile_error e; save_error := save_error e;
     _GLIBCXX_USE_CXX11_ABI := _GLIBCXX_USE_CXX11_ABI e;
     naive_model_error := naive_model_error e;
     cs_generate_error := cs_generate_error e;
     cs_external_error := cs_external_error e;
     cs_call_error := cs_call_error e; render_error := render_error e |}.

Definition with_ts_compile_error (f : TorchModule -> option exn)
    (e : Env) : Env :=
  {| as_posix := as_posix e; path_str := path_str e;
     path_exists := path_exists e; makedirs_error := makedirs_error e;
     shutil_move_error := shutil_move_error e; os_system := os_system e;
     platform_system := platform_system e;
     module_to_error := module_to_error e;
     tensor_to_error := tensor_to_error e; model_call := model_call e;
     make_fx_error := make_fx_error e;
     jit_trace_error := jit_trace_error e;
     ts_compile_error := f; save_error := save_error e;
     _GLIBCXX_USE_CXX11_ABI := _GLIBCXX_USE_CXX11_ABI e;
     naive_model_error := naive_model_error e;
     cs_generate_error := cs_generate_error e;
     cs_external_error := cs_external_error e;
     cs_call_error := cs_call_error e; render_error := render_error e |}.

Definition with_os_system (f : string -> Z) (e : Env) : Env :=
  {| as_posix := as_posix e; path_str := path_str e;
     path_exists := path_exists e; makedirs_error := makedirs_error e;
     shutil_move_error := shutil_move_error e; os_system := f;
     platform_system := platform_system e;
     module_to_error := module_to_error e;
     tensor_to_error := tensor_to_error e; model_call := model_call e;
     make_fx_error := make_fx_error e;
     jit_trace_error := jit_trace_error e;
     ts_compile_error := ts_compile_error e; save_error := save_error e;
     _GLIBCXX_USE_CXX11_ABI := _GLIBCXX_USE_CXX11_ABI e;
     naive_model_error := naive_model_error e;
     cs_generate_error := cs_generate_error e;
     cs_external_error := cs_external_error e;
     cs_call_error := cs_call_error e; render_error := render_error e |}.

Definition with_path_exists (f : Path -> bool) (e : Env) : Env :=
  {| as_posix := as_posix e; path_str := path_str e;
     path_exists := f; makedirs_error := makedirs_error e;
     shutil_move_error := shutil_move_error e; os_system := os_system e;
     platform_system := platform_system e;
     module_to_error := module_to_error e;
     tensor_to_error := tensor_to_error e; model_call := model_call e;
     make_fx_error := make_fx_error e;
     jit_trace_error := jit_trace_error e;
     ts_compile_error := ts_compile_error e; save_error := save_error e;
     _GLIBCXX_USE_CXX11_ABI := _GLIBCXX_USE_CXX11_ABI e;
     naive_model_error := naive_model_error e;
     cs_generate_error := cs_generate_error e;
     cs_external_error := cs_external_error e;
     cs_call_error := cs_call_error e; render_error := render_error e |}.

Definition with_model_call (f : Tensor -> Result Tensor) (e : Env) : Env :=
  {| as_posix := as_posix e; path_str := path_str e;
     path_exists := path_exists e; makedirs_error := makedirs_error e;
     shutil_move_error := shutil_move_error e; os_system := os_system e;
     platform_system := platform_system e;
     module_to_error := module_to_error e;
     tensor_to_error := tensor_to_error e; model_call := f;
     make_fx_error := make_fx_error e;
     jit_trace_error := jit_trace_error e;
     ts_compile_error := ts_compile_error e; save_error := save_error e;
     _GLIBCXX_USE_CXX11_ABI := _GLIBCXX_USE_CXX11_ABI e;
     naive_model_error := naive_model_error e;
     cs_generate_error := cs_generate_error e;
     cs_external_error := cs_external_error e;
     cs_call_error := cs_call_error e; render_error := render_error e |}.

(* As [healthy], but the model flattens its input into six numbers. *)
Definition flattening : Env :=
  with_model_call
    (fun x => Ok {| t_shape := [6]; t_device := t_device x |}) healthy.

(* Scenario B of the specification: the forward trace works, make_fx
   cannot capture the Jacobian. *)
Definition jacobian_untraceable : Env :=
  with_make_fx_error
    (fun d _ =>
       match d with
       | Jacrev => Some (ForeignError "make_fx(jacrev)")
       | Hessian => None
       end)
    healthy.

(* The Hessian cannot be captured; everything else works. *)
Definition hessian_untraceable : Env :=
  with_make_fx_error
    (fun d _ =>
       match d with
       | Jacrev => None
       | Hessian => Some (ForeignError "make_fx(hessian)")
       end)
    healthy.

(* The Jacobian graph is captured, but neither scripting nor tracing it
   works. *)
Definition jacobian_unserializable : Env :=
  with_ts_compile_error
    (fun m =>
       match m with
       | FxGraph Jacrev _ => Some (ForeignError "ts_compile")
       | _ => None
       end)
    (with_jit_trace_error
       (fun m _ =>
          match m with
          | FxGraph Jacrev _ => Some (ForeignError "torch.jit.trace")
          | _ => None
          end)
       healthy).

(* torch.jit.trace fails on the wrapped model; scripting would work. *)
Definition forward_untraceable : Env :=
  with_jit_trace_error
    (fun m _ =>
       match m with
       | UserModel => Some (ForeignError "torch.jit.trace")
       | FxGraph _ _ => None
       end)
    healthy.

(* Scenario C of the specification: gcc exits with status 1. *)
Definition toolchain_broken : Env := with_os_system (fun _ => 1%Z) healthy.

(* The world after the caller has repaired the toolchain: the build
   directory of the first attempt is still there. *)
Definition toolchain_repaired : Env := with_path_exists (fun _ => true) healthy.

(* A torch model wrapped with the constructor's defaults. *)
Definition torch_model : Model :=
  {| is_naive_module := false; is_nn_module := true |}.

(* Whether [NaiveL4CasADiModule] derives from [torch.nn.Module] is not
   visible in this file; the scenarios take a naive model that does. *)
Definition naive_model : Model :=
  {| is_naive_module := true; is_nn_module := true |}.

(* L4CasADi(model) with every default, as built by [__init__]. *)
Definition fresh (m : Model) (batch : bool) : L4CasADi :=
  {| model := m; naive := is_naive_module m; name := "l4casadi_f";
     has_batch := batch; device := "cpu";
     build_dir := PathOf "./_l4c_generated";
     _model_search_path := None; _cs_fun := None; _built := false;
     _with_jacobian := true; _with_hessian := true |}.

Definition x21 : CsMatrix := MX_sym "x" 2 1.
Definition x23 : CsMatrix := MX_sym "x" 2 3.

End Scenario.

(** ** Judgements on runs

    All methods but the two attribute assignments ([_built], [_cs_fun])
    leave the handle untouched, so most reasoning is done for a fixed
    handle [s]: [stays s P m] says that running [m] from [s] ends in [s]
    again and emits only events satisfying [P]. *)

Definition quiet_at {A} (s : L4CasADi) (m : M A) : Prop :=
  self_after (m s) = s.

Definition emits_at {A} (s : L4CasADi) (P : event -> Prop) (m : M A) : Prop :=
  Forall P (events (m s)).

Definition stays {A} (s : L4CasADi) (P : event -> Prop) (m : M A) : Prop :=
  quiet_at s m /\ emits_at s P m.

Definition is_os_system (ev : event) : bool :=
  match ev with
  | EvOsSystem _ => true
  | _ => false
  end.

(* Number of toolchain invocations in a log. *)
Definition toolchain_runs (log : list event) : nat :=
  List.length (filter is_os_system log).

(* The events by which a Hessian graph would be serialized. *)
Definition serializes_hessian (ev : event) : bool :=
  match ev with
  | EvTsCompile (FxGraph Hessian _) => true
  | EvJitTrace (FxGraph Hessian _) _ => true
  | EvSave (Scripted (FxGraph Hessian _)) _ => true
  | EvSave (Traced (FxGraph Hessian _) _) _ => true
  | _ => false
  end.

(* dict lookup in the template variables *)
Fixpoint lookup (key : string) (d : list (string * Value)) : option Value :=
  match d with
  | [] => None
  | (k, v) :: rest => if String.eqb k key then Some v else lookup key rest
  end.

(* The placeholders of the C++ template (spec, section 6). *)
Definition template_keys : list string :=
  [ "model_path"; "device"; "name"; "rows_in"; "cols_in"; "rows_out";
    "cols_out"; "has_jac"; "has_hess"; "model_expects_batch_dim" ].

Definition is_bool_literal (v : option Value) : Prop :=
  v = Some (VStr "true") \/ v = Some (VStr "false").

(* The probe tensor both [export_torch_traces] and
   [_generate_cpp_function_template] evaluate the model on. *)
Definition probe (self : L4CasADi) (rows cols : nat) : Tensor :=
  {| t_shape := if has_batch self then [1; rows] else [rows; cols];
     t_device := device self |}.

Definition set_with_hessian (b : bool) (self : L4CasADi) : L4CasADi :=
  {| model := model self; naive := naive self; name := name self;
     has_batch := has_batch self; device := device self;
     build_dir := build_dir self;
     _model_search_path := _model_search_path self;
     _cs_fun := _cs_fun self; _built := _built self;
     _with_jacobian := _with_jacobian self;
     _with_hessian := b |}.

(* The two tiers of [_jit_compile_and_save], read off the oracles. *)
Definition scripted_ok (env : Env) (m : TorchModule) (file : string) : bool :=
  is_none (ts_compile_error env m)
  && is_none (save_error env (Scripted m) file).

Definition traced_ok (env : Env) (m : TorchModule) (x : Tensor)
    (file : string) : bool :=
  is_none (jit_trace_error env m x)
  && is_none (save_error env (Traced m x) file).

Definition scripted_attempt (env : Env) (m : TorchModule) (file : string)
    : list event :=
  EvTsCompile m ::
  (if is_none (ts_compile_error env m) then [EvSave (Scripted m) file] else []).

Definition traced_attempt (env : Env) (m : TorchModule) (x : Tensor)
    (file : string) : list event :=
  EvJitTrace m x ::
  (if is_none (jit_trace_error env m x) then [EvSave (Traced m x) file]
   else []).

(* What goes wrong, if anything, when the forward trace is taken and saved. *)
Definition forward_trace_error (env : Env) (self : L4CasADi)
    (rows cols : nat) : option exn :=
  match jit_trace_error env UserModel (probe self rows cols) with
  | Some e => Some e
  | None =>
      save_error env (Traced UserModel (probe self rows cols))
        (as_posix env (Div (build_dir self) (name self ++ "_forward.pt")))
  end.

(* Output shape metadata as the specification words it: a batched model
   contributes its last output dimension as a column vector; otherwise a
   1-dimensional output of length n is an n x 1 column and an output with two
   or more dimensions contributes its last two. *)
Definition shape_metadata_spec (batch : bool) (out_shape : list nat)
    : option (nat * nat) :=
  if batch then
    match rev out_shape with
    | n :: _ => Some (n, 1)
    | [] => None
    end
  else
    match out_shape with
    | [n] => Some (n, 1)
    | _ =>
        match rev out_shape with
        | c :: r :: _ => Some (r, c)
        | _ => None
        end
    end.

Definition model_path_of (env : Env) (self : L4CasADi) : string :=
  match _model_search_path self with
  | None => as_posix env (Absolute (build_dir self))
  | Some p => p
  end.

Definition cpp_file (env : Env) (self : L4CasADi) : string :=
  as_posix env (Div (build_dir self) (name self ++ ".cpp")).

(* What a call of the template renderer looks like for handle [self] and
   input shape (rows, cols). *)
Definition rendered (env : Env) (self : L4CasADi) (rows cols : nat)
    (variables : list (string * Value)) (out_file : string) : Prop :=
  out_file = cpp_file env self /\
  exists y rows_out cols_out has_jac has_hess,
    model_call env (probe self rows cols) = Ok y /\
    shape_metadata_spec (has_batch self) (t_shape y)
    = Some (rows_out, cols_out) /\
    variables = gen_params self (model_path_of env self) rows cols
                  rows_out cols_out has_jac has_hess.

(* The events of [generate] on an input of shape (rows, cols). *)
Definition generate_event (env : Env) (self : L4CasADi) (rows cols : nat)
    (ev : event) : Prop :=
  match ev with
  | EvTensorTo x d => d = device self
  | EvModelCall x | EvMakeFx _ x | EvJitTrace _ x => x = probe self rows cols
  | EvTsCompile m => m <> UserModel
  | EvSave sm file => True
  | EvPrint msg => msg = jac_diagnostic \/ msg = hess_diagnostic
  | EvRender variables out_file => rendered env self rows cols variables out_file
  | _ => False
  end.

(* The events of the naive branch of [build]. *)
Definition naive_event (env : Env) (self : L4CasADi) (inp : CsMatrix)
    (ev : event) : Prop :=
  match ev with
  | EvNaiveModelCall x => x = MX_sym "inp" (fst (shape inp)) (snd (shape inp))
  | EvCsGenerate f x file => f = name self /\ file = name self ++ ".cpp"
  | EvShutilMove src dst =>
      src = name self ++ ".cpp" /\ dst = cpp_file env self
  | _ => False
  end.

(* The events [build] can emit before it calls the toolchain. *)
Definition source_event (env : Env) (self : L4CasADi) (inp : CsMatrix)
    (ev : event) : Prop :=
  match ev with
  | EvPathExists p | EvMakedirs p => p = build_dir self
  | _ =>
      if naive self then naive_event env self inp ev
      else generate_event env self (fst (shape inp)) (snd (shape inp)) ev
  end.

(* The statements of [build] that precede [self.compile()]. *)
Definition build_sources (env : Env) (inp : CsMatrix) : M unit :=
  maybe_make_generation_dir env;;
  self <- get_self;;
  if naive self then
    let '(rows, cols) := shape inp in
    let inp_sym := MX_sym "inp" rows cols in
    out_sym <- self_model_sym env inp_sym;;
    call (EvCsGenerate (name self) inp_sym (name self ++ ".cpp"))
         (outcome_of
            (cs_generate_error env (name self) inp_sym (name self ++ ".cpp"))
            tt);;
    let dst := as_posix env (Div (build_dir self) (name self ++ ".cpp")) in
    call (EvShutilMove (name self ++ ".cpp") dst)
         (outcome_of (shutil_move_error env (name self ++ ".cpp") dst) tt)
  else
    generate env inp.

(* The run of [compile] from handle [s] after the events [pre]. *)
Definition compile_after (env : Env) (s : L4CasADi) (pre : list event)
    : Run unit :=
  let cmd := os_cmd env s in
  if (os_system env cmd =? 0)%Z then
    {| result := Ok tt; self_after := set_built true s;
       events := (pre ++ [EvOsSystem cmd])%list |}
  else
    {| result := Raise (compilation_failed cmd); self_after := s;
       events := (pre ++ [EvOsSystem cmd])%list |}.

(** ** Vocabulary for the further properties *)

(* The three trace files of a handle. *)
Definition forward_file (env : Env) (self : L4CasADi) : string :=
  as_posix env (Div (build_dir self) (name self ++ "_forward.pt")).

Definition jacrev_file (env : Env) (self : L4CasADi) : string :=
  as_posix env (Div (build_dir self) (name self ++ "_jacrev.pt")).

Definition hess_file (env : Env) (self : L4CasADi) : string :=
  as_posix env (Div (build_dir self) (name self ++ "_hess.pt")).

(* One of the two tiers of [_jit_compile_and_save] goes through. *)
Definition serialized (env : Env) (m : TorchModule) (x : Tensor)
    (file : string) : bool :=
  scripted_ok env m file || traced_ok env m x file.

(* The log of one call of [_jit_compile_and_save]. *)
Definition two_tier_log (env : Env) (m : TorchModule) (x : Tensor)
    (file : string) : list event :=
  (scripted_attempt env m file ++
   (if scripted_ok env m file then [] else traced_attempt env m x file))%list.

(* What [maybe_make_generation_dir] does to the file system. *)
Definition directory_events (env : Env) (self : L4CasADi) : list event :=
  EvPathExists (build_dir self)
  :: (if path_exists env (build_dir self) then []
      else [EvMakedirs (build_dir self)]).

Definition is_directory_event (ev : event) : bool :=
  match ev with
  | EvPathExists _ | EvMakedirs _ => true
  | _ => false
  end.

(* The collaborators a naive build may talk to: the file system, CasADi and
   the toolchain; never torch, never the template renderer. *)
Definition naive_build_event (inp : CsMatrix) (ev : event) : Prop :=
  match ev with
  | EvPathExists _ | EvMakedirs _ | EvCsGenerate _ _ _ | EvShutilMove _ _
  | EvOsSystem _ => True
  | EvNaiveModelCall x => x = MX_sym "inp" (fst (shape inp)) (snd (shape inp))
  | _ => False
  end.

(* The library file [_load_built_library_as_external_cs_fun] binds. *)
Definition lib_file (env : Env) (self : L4CasADi) : string :=
  path_str env (Div (build_dir self) ("lib" ++ name self))
  ++ dynamic_lib_file_ending env.

Definition lib_function (env : Env) (self : L4CasADi) : CsFunction :=
  {| cs_name := name self; cs_lib := lib_file env self |}.

(* Everything the constructor fixed: all attributes but [_built] and
   [_cs_fun]. *)
Definition same_config (s s' : L4CasADi) : Prop :=
  model s' = model s /\ naive s' = naive s /\ name s' = name s
  /\ has_batch s' = has_batch s /\ device s' = device s
  /\ build_dir s' = build_dir s
  /\ _model_search_path s' = _model_search_path s
  /\ _with_jacobian s' = _with_jacobian s
  /\ _with_hessian s' = _with_hessian s.

(* A handle that holds an external function has been built. *)
Definition bound_implies_built (s : L4CasADi) : Prop :=
  _cs_fun s <> None -> _built s = true.

(* The events of [export_torch_traces], by what was requested. *)
Definition requested_event (self : L4CasADi) (ev : event) : Prop :=
  match ev with
  | EvTensorTo _ _ => True
  | EvJitTrace UserModel _ | EvSave (Traced UserModel _) _ => True
  | EvMakeFx Jacrev _ | EvTsCompile (FxGraph Jacrev _)
  | EvJitTrace (FxGraph Jacrev _) _
  | EvSave (Scripted (FxGraph Jacrev _)) _
  | EvSave (Traced (FxGraph Jacrev _) _) _ => _with_jacobian self = true
  | EvMakeFx Hessian _ | EvTsCompile (FxGraph Hessian _)
  | EvJitTrace (FxGraph Hessian _) _
  | EvSave (Scripted (FxGraph Hessian _)) _
  | EvSave (Traced (FxGraph Hessian _) _) _ => _with_hessian self = true
  | _ => False
  end.

(* The events of [_generate_cpp_function_template] called with the flags
   (has_jac, has_hess): the renderer gets these very flags. *)
Definition template_event (has_jac has_hess : bool) (ev : event) : Prop :=
  match ev with
  | EvTensorTo _ _ | EvModelCall _ => True
  | EvRender variables _ =>
      lookup "has_jac" variables = Some (VStr (py_bool_literal has_jac))
      /\ lookup "has_hess" variables = Some (VStr (py_bool_literal has_hess))
  | _ => False
  end.

(* The run of [forward] on a built, non-naive handle whose input passes the
   batch check: bind the library if that has not happened yet, then apply
   the external function. *)
Definition bound_evaluation (env : Env) (inp : CsMatrix) (s : L4CasADi)
    : Run CsOut :=
  match _cs_fun s with
  | Some f =>
      {| result := outcome_of (cs_call_error env f inp) (ExternalOut f inp);
         self_after := s; events := [EvCsCall f inp] |}
  | None =>
      match cs_external_error env (name s) (lib_file env s) with
      | Some e =>
          {| result := Raise e; self_after := s;
             events := [EvCsExternal (name s) (lib_file env s)] |}
      | None =>
          {| result := outcome_of
                         (cs_call_error env (lib_function env s) inp)
                         (ExternalOut (lib_function env s) inp);
             self_after := set_cs_fun (Some (lib_function env s)) s;
             events := [ EvCsExternal (name s) (lib_file env s);
                         EvCsCall (lib_function env s) inp ] |}
      end
  end.

(** * Properties *)

(** ** The monad *)

Section MonadFacts.

Context {A B : Type}.

(* A bind returns only if both halves do. *)
Lemma bind_ok_inv (m : M A) (k : A -> M B) s b :
  result (bind m k s) = Ok b ->
  exists a,
    result (m s) = Ok a /\
    result (k a (self_after (m s))) = Ok b /\
    self_after (bind m k s) = self_after (k a (self_after (m s))) /\
    events (bind m k s)
    = (events (m s) ++ events (k a (self_after (m s))))%list.
Proof.
  unfold bind. destruct (result (m s)) as [a|e] eqn:E; simpl.
  - intros H. exists a. auto.
  - discriminate.
Qed.

End MonadFacts.

(* Running a method one statement at a time. *)

Lemma prepend_nil {A} (r : Run A) : prepend [] r = r.
Proof. destruct r; reflexivity. Qed.

Lemma prepend_prepend {A} l l' (r : Run A) :
  prepend l (prepend l' r) = prepend (l ++ l')%list r.
Proof. unfold prepend. simpl. now rewrite app_assoc. Qed.

Lemma run_bind {A B} (m : M A) (k : A -> M B) s :
  bind m k s =
    match result (m s) with
    | Ok a => prepend (events (m s)) (k a (self_after (m s)))
    | Raise e =>
        {| result := Raise e; self_after := self_after (m s);
           events := events (m s) |}
    end.
Proof. reflexivity. Qed.

Lemma run_bind_get {B} (k : L4CasADi -> M B) s : bind get_self k s = k s s.
Proof. rewrite run_bind. simpl. apply prepend_nil. Qed.

Lemma run_bind_ret {A B} (a : A) (k : A -> M B) s : bind (ret a) k s = k a s.
Proof. rewrite run_bind. simpl. apply prepend_nil. Qed.

Lemma run_bind_raise {A B} e (k : A -> M B) s :
  bind (raise e) k s = {| result := Raise e; self_after := s; events := [] |}.
Proof. reflexivity. Qed.

Lemma run_bind_call_ok {A B} ev (a : A) (k : A -> M B) s :
  bind (call ev (Ok a)) k s = prepend [ev] (k a s).
Proof. reflexivity. Qed.

Lemma run_bind_call_raise {A B} ev e (k : A -> M B) s :
  bind (call ev (Raise e)) k s =
    {| result := Raise e; self_after := s; events := [ev] |}.
Proof. reflexivity. Qed.

Lemma bind_assoc_at {A B C} (m : M A) (k : A -> M B) (h : B -> M C) s :
  bind m (fun a => bind (k a) h) s = bind (bind m k) h s.
Proof.
  unfold bind. destruct (result (m s)) as [a|e]; simpl; [| reflexivity].
  destruct (result (k a (self_after (m s)))) as [b|e]; simpl;
    [rewrite app_assoc |]; reflexivity.
Qed.

Lemma bind_ext_at {A B} (m : M A) (k k' : A -> M B) s :
  (forall a s', k a s' = k' a s') -> bind m k s = bind m k' s.
Proof.
  intros H. unfold bind. destruct (result (m s)); [rewrite H |]; reflexivity.
Qed.

(** ** Rules for [quiet_at], [emits_at] and [stays] *)

Section Rules.

Variable s : L4CasADi.
Variable P : event -> Prop.

Lemma stays_ret {A} (a : A) : stays s P (ret a).
Proof. split; [reflexivity | constructor]. Qed.

Lemma stays_raise {A} (e : exn) : stays s P (@raise A e).
Proof. split; [reflexivity | constructor]. Qed.

Lemma stays_call {A} ev (r : Result A) : P ev -> stays s P (call ev r).
Proof. intros H. split; [reflexivity | repeat constructor; exact H]. Qed.

(* The bind rule; the second half may use what the first returned. *)
Lemma stays_bind_res {A B} (m : M A) (k : A -> M B) :
  stays s P m ->
  (forall a, result (m s) = Ok a -> stays s P (k a)) ->
  stays s P (bind m k).
Proof.
  intros [Hq He] Hk. unfold stays, quiet_at, emits_at in *.
  unfold bind. destruct (result (m s)) as [a|e] eqn:E; simpl.
  - rewrite Hq. destruct (Hk a eq_refl) as [Hq' He'].
    split; [exact Hq' | apply Forall_app; split; assumption].
  - split; assumption.
Qed.

Lemma stays_bind {A B} (m : M A) (k : A -> M B) :
  stays s P m -> (forall a, stays s P (k a)) -> stays s P (bind m k).
Proof. intros Hm Hk. apply stays_bind_res; auto. Qed.

(* self.<attribute> reads the handle we started from *)
Lemma stays_bind_get {B} (k : L4CasADi -> M B) :
  stays s P (k s) -> stays s P (bind get_self k).
Proof. intros H. exact H. Qed.

Lemma stays_try {A} (body handler : M A) :
  stays s P body -> stays s P handler -> stays s P (try_except body handler).
Proof.
  intros [Hq He] [Hq' He']. unfold stays, quiet_at, emits_at in *.
  unfold try_except. destruct (result (body s)); simpl.
  - split; assumption.
  - rewrite Hq. split; [exact Hq' | apply Forall_app; split; assumption].
Qed.

Lemma stays_when b (m : M unit) : stays s P m -> stays s P (when b m).
Proof. destruct b; simpl; [auto | intros _; apply stays_ret]. Qed.

End Rules.

Lemma stays_weaken {A} s (P Q : event -> Prop) (m : M A) :
  (forall ev, P ev -> Q ev) -> stays s P m -> stays s Q m.
Proof.
  intros HPQ [Hq He]. split; [exact Hq |].
  unfold emits_at in *. eapply Forall_impl; eauto.
Qed.

Lemma call_outcome_ok {A} ev o (a b : A) s :
  result (call ev (outcome_of o a) s) = Ok b -> o = None /\ b = a.
Proof.
  unfold call, outcome_of. simpl. destruct o; [discriminate |].
  intros H. injection H as <-. auto.
Qed.

(* Walks through a method body: one rule per statement, a case split per
   branch on the handle or on a value. *)
Ltac py_walk :=
  repeat first
    [ apply stays_bind_get
    | apply stays_ret
    | apply stays_raise
    | apply stays_when
    | apply stays_try
    | apply stays_bind_res; [| intros ? ?]
    | apply stays_call
    | match goal with
      | |- stays _ _ (if ?b then _ else _) => destruct b
      | |- stays _ _ (match ?x with _ => _ end) => destruct x
      end ].

(* What a collaborator returned, when it returned. *)
Ltac py_returned :=
  repeat match goal with
         | H : result (call _ (outcome_of _ _) _) = Ok _ |- _ =>
             apply call_outcome_ok in H; destruct H as [? ->]
         end.

(** ** Serialization *)

#[global] Arguments _jit_compile_and_save env m file_path dummy_inp : simpl never.

(* Case analysis on what the collaborators answer, one oracle at a time. *)
Ltac py_cases :=
  repeat (cbn in *;
          match goal with
          | H : ?o = _ |- context [?o] => rewrite H
          | |- context [outcome_of ?o _] => destruct o eqn:?
          | |- context [match ?o with Some _ => _ | None => _ end] =>
              destruct o eqn:?
          | |- context [match ?o with Ok _ => _ | Raise _ => _ end] =>
              destruct o eqn:?
          | |- context [if ?b then _ else _] => destruct b eqn:?
          end).

(* [_jit_compile_and_save] never raises and never touches the handle: it
   answers whether one of the two tiers went through. *)
Lemma jit_compile_and_save_run env m file x s :
  _jit_compile_and_save env m file x s =
    {| result := Ok (scripted_ok env m file || traced_ok env m x file);
       self_after := s;
       events := (scripted_attempt env m file ++
                  (if scripted_ok env m file then []
                   else traced_attempt env m x file))%list |}.
Proof.
  unfold _jit_compile_and_save, scripted_ok, traced_ok, scripted_attempt,
    traced_attempt, try_except, bind, ts_compile, torch_jit_trace, save, call.
  py_cases; reflexivity.
Qed.

Lemma jit_compile_and_save_stays s (P : event -> Prop) env m file x :
  P (EvTsCompile m) -> P (EvSave (Scripted m) file) ->
  P (EvJitTrace m x) -> P (EvSave (Traced m x) file) ->
  stays s P (_jit_compile_and_save env m file x).
Proof.
  intros H1 H2 H3 H4.
  unfold _jit_compile_and_save, ts_compile, torch_jit_trace, save.
  py_walk; py_returned; assumption.
Qed.

(* The guarded Hessian trace yields the Hessian graph or nothing. *)
Lemma guarded_hessian_trace env x s o :
  result (try_except (h <- _trace_hess_model env x;; ret (Some h))
                     (ret None) s) = Ok o ->
  o = None \/ (o = Some (FxGraph Hessian x)
               /\ make_fx_error env Hessian x = None).
Proof.
  unfold try_except, bind, _trace_hess_model, make_fx, call, outcome_of, ret.
  simpl. destruct (make_fx_error env Hessian x); simpl; intros H;
    injection H as <-; auto.
Qed.

Lemma d_inp_is_probe (s : L4CasADi) (rows cols : nat) :
  {| t_shape :=
       t_shape (if has_batch s then torch_zeros [1; rows]
                else torch_zeros [rows; cols]);
     t_device := device s |} = probe s rows cols.
Proof. unfold probe. destruct (has_batch s); reflexivity. Qed.

(** ** The log of [export_torch_traces] *)

Lemma export_torch_traces_stays env rows cols s :
  stays s (generate_event env s rows cols) (export_torch_traces env rows cols).
Proof.
  unfold export_torch_traces.
  apply stays_bind_get.
  apply stays_bind_res.
  { apply stays_call. reflexivity. }
  intros d Hd. unfold tensor_to in Hd. py_returned.
  rewrite d_inp_is_probe.
  unfold torch_jit_trace, save, _trace_jac_model, _trace_hess_model, make_fx.
  py_walk; py_returned;
    try match goal with
        | H : result (try_except _ _ _) = Ok (Some _) |- _ =>
            apply guarded_hessian_trace in H;
            destruct H as [H | [H _]]; [discriminate | injection H as ->]
        end;
    try apply jit_compile_and_save_stays;
    simpl; auto; discriminate.
Qed.

(** ** Shape metadata *)

Lemma slice_last_two_app (pre : list nat) a b :
  slice_last_two (pre ++ [a; b])%list = [a; b].
Proof.
  unfold slice_last_two. rewrite length_app. simpl.
  replace (List.length pre + 2 - 2) with (List.length pre + 0) by lia.
  rewrite skipn_app, Nat.add_0_r, skipn_all.
  replace (List.length pre - List.length pre) with 0 by lia.
  reflexivity.
Qed.

Lemma slice_last_two_unpacked (l : list nat) a b :
  slice_last_two l = [a; b] -> exists pre, l = (pre ++ [a; b])%list.
Proof.
  unfold slice_last_two. intros H.
  exists (firstn (List.length l - 2) l).
  rewrite <- H. symmetry. apply firstn_skipn.
Qed.

Lemma unpack_2_ok (l : list nat) s a b :
  result (unpack_2 l s) = Ok (a, b) -> l = [a; b].
Proof.
  unfold unpack_2.
  destruct l as [|x [|y [|z l]]]; simpl; try discriminate.
  intros H. injection H as <- <-. reflexivity.
Qed.

Lemma index_last_ok (l : list nat) s n :
  result (index_last l s) = Ok n -> exists tl, rev l = n :: tl.
Proof.
  unfold index_last. destruct (rev l) as [|x tl]; simpl; [discriminate |].
  intros H. injection H as <-. eauto.
Qed.

(* The shape arithmetic of [_generate_cpp_function_template], batched. *)
Lemma batched_dims_refine (l : list nat) s n :
  result (index_last l s) = Ok n ->
  shape_metadata_spec true l = Some (n, 1).
Proof.
  intros H. apply index_last_ok in H as [tl E].
  unfold shape_metadata_spec. now rewrite E.
Qed.

(* ... and not batched. *)
Lemma plain_dims_refine (l : list nat) s rc :
  result ((if (List.length l =? 1)%nat
           then rows_out <- index_0 l;; ret (rows_out, 1)
           else unpack_2 (slice_last_two l)) s) = Ok rc ->
  shape_metadata_spec false l = Some rc.
Proof.
  destruct rc as [r c]. unfold shape_metadata_spec.
  destruct (Nat.eqb_spec (List.length l) 1) as [E|E].
  - destruct l as [|n [|? ?]]; try discriminate E.
    simpl. intros H. injection H as <- <-. reflexivity.
  - intros H. apply unpack_2_ok in H.
    apply slice_last_two_unpacked in H as [pre ->].
    rewrite rev_app_distr. simpl.
    destruct pre as [|x [|y pre]]; reflexivity.
Qed.

(** ** The log of [generate] and of [build] *)

Lemma generate_cpp_function_template_stays env rows cols has_jac has_hess s :
  stays s (generate_event env s rows cols)
        (_generate_cpp_function_template env rows cols has_jac has_hess).
Proof.
  unfold _generate_cpp_function_template.
  apply stays_bind_get. apply stays_bind_res.
  - destruct (has_batch s) eqn:Hb;
      unfold tensor_to, self_model, index_last, index_0, unpack_2;
      py_walk; py_returned; simpl; auto;
      unfold probe; rewrite Hb; reflexivity.
  - intros [ro co] Hdims. apply stays_call. simpl.
    split; [reflexivity |].
    destruct (has_batch s) eqn:Hb.
    + apply bind_ok_inv in Hdims as (x & Hx & Hd & _).
      unfold tensor_to in Hx. apply call_outcome_ok in Hx as [Ht ->].
      simpl in Hd.
      apply bind_ok_inv in Hd as (y & Hy & Hd & _). simpl in Hy, Hd.
      apply bind_ok_inv in Hd as (n & Hlast & Hd & _). simpl in Hd.
      injection Hd as <- <-.
      exists y, n, 1, has_jac, has_hess. repeat split.
      * unfold probe. rewrite Hb. exact Hy.
      * eapply batched_dims_refine; eauto.
    + apply bind_ok_inv in Hdims as (x & Hx & Hd & _).
      unfold tensor_to in Hx. apply call_outcome_ok in Hx as [Ht ->].
      simpl in Hd.
      apply bind_ok_inv in Hd as (y & Hy & Hd & _). simpl in Hy, Hd.
      exists y, ro, co, has_jac, has_hess. repeat split.
      * unfold probe. rewrite Hb. exact Hy.
      * eapply plain_dims_refine; eauto.
Qed.

Lemma generate_stays env inp s :
  stays s (generate_event env s (fst (shape inp)) (snd (shape inp)))
        (generate env inp).
Proof.
  unfold generate.
  rewrite (surjective_pairing (shape inp)) at 3.
  apply stays_bind; [apply export_torch_traces_stays |].
  intros [has_jac has_hess]. unfold print. apply stays_bind_get.
  do 2 (apply stays_bind;
        [apply stays_when, stays_call; simpl; auto | intros _]).
  apply generate_cpp_function_template_stays.
Qed.

Lemma maybe_make_generation_dir_quiet env s :
  self_after (maybe_make_generation_dir env s) = s.
Proof.
  assert (stays s (fun _ => True) (maybe_make_generation_dir env)) as [Hq _]
    by (unfold maybe_make_generation_dir; py_walk; exact I).
  exact Hq.
Qed.

Section SourcesLog.

Variable env : Env.
Variable inp : CsMatrix.
Variable s : L4CasADi.

Lemma build_sources_stays :
  stays s (source_event env s inp) (build_sources env inp).
Proof.
  unfold build_sources, maybe_make_generation_dir, self_model_sym.
  apply stays_bind; [py_walk; simpl; auto |].
  intros _. apply stays_bind_get.
  destruct (naive s) eqn:Hn.
  - rewrite (surjective_pairing (shape inp)) at 1.
    py_walk; unfold source_event; rewrite Hn; simpl; auto.
  - eapply stays_weaken; [| apply generate_stays].
    intros ev Hev. unfold source_event. rewrite Hn.
    destruct ev; simpl in Hev; try contradiction; exact Hev.
Qed.

(* [build] is its source-producing prefix followed by one toolchain run,
   and [_built] is assigned only if that run exits with status 0. *)
Lemma build_run :
  build env inp s =
    match result (build_sources env inp s) with
    | Ok _ => compile_after env s (events (build_sources env inp s))
    | Raise e =>
        {| result := Raise e; self_after := s;
           events := events (build_sources env inp s) |}
    end.
Proof.
  destruct build_sources_stays as [Hq _]. unfold quiet_at in Hq.
  transitivity
    (bind (build_sources env inp)
          (fun _ => compile env;; modify (set_built true)) s).
  - unfold build, build_sources.
    rewrite <- bind_assoc_at. apply bind_ext_at. intros _ s'.
    rewrite <- bind_assoc_at. reflexivity.
  - unfold bind at 1. destruct (result (build_sources env inp s)); simpl;
      rewrite Hq; [| reflexivity].
    unfold compile_after, compile, bind, call, when, modify, get_self, raise.
    simpl. destruct (os_system env (os_cmd env s) =? 0)%Z; simpl;
      rewrite ?app_nil_r; reflexivity.
Qed.

End SourcesLog.

(** ** Hessian export *)

Lemma two_tier_events_forall (P : event -> Prop) env m file x :
  P (EvTsCompile m) -> P (EvSave (Scripted m) file) ->
  P (EvJitTrace m x) -> P (EvSave (Traced m x) file) ->
  Forall P (scripted_attempt env m file ++
            (if scripted_ok env m file then []
             else traced_attempt env m x file))%list.
Proof.
  intros H1 H2 H3 H4. unfold scripted_attempt, traced_attempt.
  apply Forall_app. split.
  - destruct (is_none (ts_compile_error env m)); repeat constructor; auto.
  - destruct (scripted_ok env m file); [constructor |].
    destruct (is_none (jit_trace_error env m x)); repeat constructor; auto.
Qed.

Lemma run_bind_serialize {B} env m file x (k : bool -> M B) s :
  bind (_jit_compile_and_save env m file x) k s =
    prepend (scripted_attempt env m file ++
             (if scripted_ok env m file then []
              else traced_attempt env m x file))%list
            (k (scripted_ok env m file || traced_ok env m x file) s).
Proof. rewrite run_bind, jit_compile_and_save_run. reflexivity. Qed.

Lemma guarded_hessian_trace_run env x s :
  try_except (h <- _trace_hess_model env x;; ret (Some h)) (ret None) s =
    {| result := Ok (match make_fx_error env Hessian x with
                     | None => Some (FxGraph Hessian x)
                     | Some _ => None
                     end);
       self_after := s;
       events := [EvMakeFx Hessian x] |}.
Proof.
  unfold try_except, bind, _trace_hess_model, make_fx, call, outcome_of, ret.
  simpl. destruct (make_fx_error env Hessian x); reflexivity.
Qed.

Lemma run_bind_guarded_hessian {B} env x (k : option TorchModule -> M B) s :
  bind (try_except (h <- _trace_hess_model env x;; ret (Some h)) (ret None))
       k s =
    prepend [EvMakeFx Hessian x]
            (k (match make_fx_error env Hessian x with
                | None => Some (FxGraph Hessian x)
                | Some _ => None
                end) s).
Proof. rewrite run_bind, guarded_hessian_trace_run. reflexivity. Qed.

(* Runs the next statement of a method; splits on a collaborator's answer
   when that is what the statement waits for. *)
Ltac py_step :=
  first
    [ progress cbn [outcome_of when negb andb orb]
    | progress cbv beta iota
    | rewrite run_bind_get
    | rewrite run_bind_ret
    | rewrite run_bind_raise
    | rewrite run_bind_call_ok
    | rewrite run_bind_call_raise
    | rewrite run_bind_serialize
    | rewrite run_bind_guarded_hessian
    | rewrite prepend_prepend
    | rewrite <- bind_assoc_at
    | match goal with
      | H : ?o = _ |- context [outcome_of ?o _] => rewrite H
      | H : ?o = _ |- context [call _ ?o] => rewrite H
      | H : ?o = _ |- context [match ?o with Some _ => _ | None => _ end] =>
          rewrite H
      | |- context [outcome_of ?o _] => destruct o eqn:?
      | |- context [bind (if ?b then _ else _) _ _] => destruct b eqn:?
      end ].

(* A log assembled from literal events and two-tier serializations. *)
Ltac py_log :=
  repeat match goal with
         | |- Forall _ (scripted_attempt _ _ _ ++ _)%list =>
             apply two_tier_events_forall; cbn; auto
         | |- Forall _ [] => apply Forall_nil
         | |- Forall _ (_ :: _) => apply Forall_cons; [cbn; auto |]
         | |- Forall _ (_ ++ _)%list => apply Forall_app; split
         | |- Forall _ (events (ret _ _)) => apply Forall_nil
         end.

(** C6. When the Hessian is requested and tracing it raises, the exception
    is swallowed inside [export_torch_traces]: the outcome is exactly the one
    of an export without Hessian, the Hessian flag of a returning export is
    [False], the handle is untouched, and no serialization of a Hessian graph
    is attempted. *)
Theorem C6_hessian_trace_failure_is_swallowed
    env rows cols (s : L4CasADi) e :
  _with_hessian s = true ->
  make_fx_error env Hessian (probe s rows cols) = Some e ->
  let r := export_torch_traces env rows cols s in
  let r0 := export_torch_traces env rows cols (set_with_hessian false s) in
  result r = result r0
  /\ (forall has_jac has_hess,
        result r = Ok (has_jac, has_hess) -> has_hess = false)
  /\ Forall (fun ev => serializes_hessian ev = false) (events r)
  /\ self_after r = s.
Proof.
  intros Hw He r r0. subst r r0.
  unfold export_torch_traces, tensor_to, torch_jit_trace, save,
    _trace_jac_model, make_fx.
  rewrite !run_bind_get.
  cbn [set_with_hessian has_batch device build_dir name _with_jacobian
       _with_hessian].
  rewrite Hw, d_inp_is_probe.
  repeat py_step; cbn [result self_after events prepend];
    (repeat split;
     [ intros ? ? H; try discriminate H; injection H as _ <-; reflexivity
     | py_log ]).
Qed.

Lemma C6_witness :
  result (export_torch_traces Scenario.hessian_untraceable 2 1
            (Scenario.fresh Scenario.torch_model true))
  = result (export_torch_traces Scenario.hessian_untraceable 2 1
              (set_with_hessian false
                 (Scenario.fresh Scenario.torch_model true)))
  /\ Forall (fun ev => serializes_hessian ev = false)
            (events (export_torch_traces Scenario.hessian_untraceable 2 1
                       (Scenario.fresh Scenario.torch_model true))).
Proof.
  destruct (@C6_hessian_trace_failure_is_swallowed
              Scenario.hessian_untraceable 2 1
              (Scenario.fresh Scenario.torch_model true)
              (ForeignError "make_fx(hessian)") eq_refl eq_refl)
    as (Hsame & _ & Hlog & _).
  split; [exact Hsame | exact Hlog].
Defined.

(** ** What is handed to the template renderer *)

Lemma rendered_keys env s rows cols variables out_file :
  rendered env s rows cols variables out_file ->
  map fst variables = template_keys
  /\ is_bool_literal (lookup "has_jac" variables)
  /\ is_bool_literal (lookup "has_hess" variables)
  /\ lookup "model_expects_batch_dim" variables
     = Some (VStr (py_bool_literal (has_batch s)))
  /\ out_file = as_posix env (Div (build_dir s) (name s ++ ".cpp")).
Proof.
  intros [-> (y & ro & co & hj & hh & _ & _ & ->)].
  repeat split.
  - destruct hj; [left | right]; reflexivity.
  - destruct hh; [left | right]; reflexivity.
Qed.

Lemma rendered_shapes env s rows cols variables out_file :
  rendered env s rows cols variables out_file ->
  lookup "rows_in" variables = Some (VInt rows)
  /\ lookup "cols_in" variables = Some (VInt cols)
  /\ exists y rows_out cols_out,
       model_call env (probe s rows cols) = Ok y
       /\ shape_metadata_spec (has_batch s) (t_shape y)
          = Some (rows_out, cols_out)
       /\ lookup "rows_out" variables = Some (VInt rows_out)
       /\ lookup "cols_out" variables = Some (VInt cols_out).
Proof.
  intros [-> (y & ro & co & hj & hh & Hy & Hspec & ->)].
  repeat split. exists y, ro, co. repeat split; assumption.
Qed.

(* A template call that returns has rendered. *)
Lemma template_ok_rendered env rows cols has_jac has_hess s u :
  result (_generate_cpp_function_template env rows cols has_jac has_hess s)
  = Ok u ->
  exists variables,
    In (EvRender variables (cpp_file env s))
       (events (_generate_cpp_function_template env rows cols
                  has_jac has_hess s)).
Proof.
  unfold _generate_cpp_function_template. rewrite run_bind_get.
  intros H. apply bind_ok_inv in H as ([ro co] & _ & _ & _ & ->).
  eexists. apply in_or_app. right. left. reflexivity.
Qed.

Lemma generate_ok_rendered env inp s u :
  result (generate env inp s) = Ok u ->
  exists variables,
    In (EvRender variables (cpp_file env s)) (events (generate env inp s)).
Proof.
  unfold generate. destruct (shape inp) as [rows cols].
  destruct (export_torch_traces_stays env rows cols s) as [Hq _].
  unfold quiet_at in Hq.
  intros H. apply bind_ok_inv in H as ([hj hh] & _ & H & _ & ->).
  rewrite Hq in *. rewrite run_bind_get in *.
  apply bind_ok_inv in H as (u1 & _ & H & _ & ->).
  apply bind_ok_inv in H as (u2 & _ & H & _ & ->).
  assert (forall b m, self_after (when b (print m) s) = s) as Hw
    by (intros [] ?; reflexivity).
  rewrite !Hw in *.
  apply template_ok_rendered in H as [variables Hin].
  exists variables. repeat (apply in_or_app; right). exact Hin.
Qed.

(** ** Input validation *)

(** C7. A handle that expects a batch dimension rejects, in [forward], every
    input whose trailing dimension is not 1 with the ValueError for batched
    models; at that point nothing has been emitted (no build step, no file
    access) and the handle is unchanged. *)
Theorem C7_batched_non_vector_input_rejected env inp s :
  has_batch s = true ->
  snd (shape inp) <> 1 ->
  forward env inp s =
    {| result := Raise (ValueError batch_msg);
       self_after := s; events := [] |}.
Proof.
  intros Hb Hs. unfold forward. rewrite run_bind_get, Hb.
  destruct (Nat.eqb_spec (snd (shape inp)) 1) as [E|_]; [contradiction |].
  cbn [when negb]. apply run_bind_raise.
Qed.

Lemma C7_witness :
  has_batch (Scenario.fresh Scenario.torch_model true) = true
  /\ snd (shape Scenario.x23) <> 1
  /\ forward Scenario.healthy Scenario.x23
       (Scenario.fresh Scenario.torch_model true)
     = {| result := Raise (ValueError batch_msg);
          self_after := Scenario.fresh Scenario.torch_model true;
          events := [] |}.
Proof.
  split; [reflexivity |]. split; [discriminate |].
  apply C7_batched_non_vector_input_rejected; [reflexivity | discriminate].
Defined.

(** ** Shape metadata in the rendered source *)

(** C10. Without a batch dimension, [_generate_cpp_function_template] probes
    the model on zeros(rows, cols); a 1-dimensional output of length n is
    rendered as rows_out = n, cols_out = 1, and an output with two or more
    dimensions as its last two dimensions. *)
Theorem C10_unbatched_output_shape env rows cols has_jac has_hess s y :
  has_batch s = false ->
  tensor_to_error env (device s) = None ->
  model_call env (probe s rows cols) = Ok y ->
  let run := _generate_cpp_function_template env rows cols has_jac has_hess s in
  let log rows_out cols_out :=
    [ EvTensorTo (torch_zeros [rows; cols]) (device s);
      EvModelCall (probe s rows cols);
      EvRender (gen_params s (model_path_of env s) rows cols
                  rows_out cols_out has_jac has_hess)
               (cpp_file env s) ] in
  (forall n, t_shape y = [n] ->
     events run = log n 1
     /\ lookup "rows_out" (gen_params s (model_path_of env s) rows cols
                             n 1 has_jac has_hess) = Some (VInt n)
     /\ lookup "cols_out" (gen_params s (model_path_of env s) rows cols
                             n 1 has_jac has_hess) = Some (VInt 1))
  /\ (forall front r c, t_shape y = (front ++ [r; c])%list ->
       events run = log r c
       /\ lookup "rows_out" (gen_params s (model_path_of env s) rows cols
                               r c has_jac has_hess) = Some (VInt r)
       /\ lookup "cols_out" (gen_params s (model_path_of env s) rows cols
                               r c has_jac has_hess) = Some (VInt c)).
Proof.
  intros Hb Ht Hy run log. subst run log.
  unfold probe in *. rewrite Hb in *.
  unfold _generate_cpp_function_template, tensor_to, self_model.
  rewrite run_bind_get, Hb. cbv beta iota.
  cbn [t_shape torch_zeros].
  split.
  - intros n E.
    repeat first [ rewrite E
                 | progress cbn [List.length Nat.eqb index_0]
                 | py_step ].
    unfold render_casadi_c_template. repeat split.
  - intros front r c E.
    assert ((List.length (front ++ [r; c]) =? 1)%nat = false) as Hlen.
    { rewrite length_app. apply Nat.eqb_neq. simpl. lia. }
    repeat first [ rewrite E
                 | rewrite Hlen
                 | rewrite slice_last_two_app
                 | progress cbn [unpack_2]
                 | py_step ].
    unfold render_casadi_c_template. repeat split.
Qed.

Lemma C10_witness :
  (exists variables,
     events (_generate_cpp_function_template Scenario.flattening 2 3 true true
               (Scenario.fresh Scenario.torch_model false))
     = [ EvTensorTo (torch_zeros [2; 3]) "cpu";
         EvModelCall (torch_zeros [2; 3]);
         EvRender variables "./_l4c_generated/l4casadi_f.cpp" ]
     /\ lookup "rows_out" variables = Some (VInt 6)
     /\ lookup "cols_out" variables = Some (VInt 1))
  /\ (exists variables,
       events (_generate_cpp_function_template Scenario.healthy 2 3 true true
                 (Scenario.fresh Scenario.torch_model false))
       = [ EvTensorTo (torch_zeros [2; 3]) "cpu";
           EvModelCall (torch_zeros [2; 3]);
           EvRender variables "./_l4c_generated/l4casadi_f.cpp" ]
       /\ lookup "rows_out" variables = Some (VInt 2)
       /\ lookup "cols_out" variables = Some (VInt 3)).
Proof.
  split; eexists.
  - apply (proj1 (@C10_unbatched_output_shape Scenario.flattening 2 3 true
                    true (Scenario.fresh Scenario.torch_model false) _
                    eq_refl eq_refl eq_refl) 6 eq_refl).
  - apply (proj2 (@C10_unbatched_output_shape Scenario.healthy 2 3 true
                    true (Scenario.fresh Scenario.torch_model false) _
                    eq_refl eq_refl eq_refl) [] 2 3 eq_refl).
Defined.


(** C9. In a build of a non-naive handle every call of the template
    renderer passes exactly the ten keys of the template, the three
    boolean-valued ones as the strings "true" or "false", and writes to
    build_dir / (name + ".cpp"); a build that returns has made such a
    call. *)
Theorem C9_template_variables env inp s :
  naive s = false ->
  (forall variables out_file,
     In (EvRender variables out_file) (events (build env inp s)) ->
     map fst variables = template_keys
     /\ is_bool_literal (lookup "has_jac" variables)
     /\ is_bool_literal (lookup "has_hess" variables)
     /\ lookup "model_expects_batch_dim" variables
        = Some (VStr (py_bool_literal (has_batch s)))
     /\ out_file = as_posix env (Div (build_dir s) (name s ++ ".cpp")))
  /\ (result (build env inp s) = Ok tt ->
      exists variables,
        In (EvRender variables
              (as_posix env (Div (build_dir s) (name s ++ ".cpp"))))
           (events (build env inp s))).
Proof.
  intros Hn.
  destruct (build_sources_stays env inp s) as [_ Hlog].
  unfold emits_at in Hlog. rewrite Forall_forall in Hlog.
  rewrite build_run. split.
  - intros variables out_file Hin.
    assert (In (EvRender variables out_file)
               (events (build_sources env inp s))) as Hsrc.
    { destruct (result (build_sources env inp s)); [| exact Hin].
      unfold compile_after in Hin.
      destruct (os_system env (os_cmd env s) =? 0)%Z; simpl in Hin;
        apply in_app_or in Hin as [Hin | [Hin | []]];
        auto; discriminate. }
    apply Hlog in Hsrc. unfold source_event in Hsrc. rewrite Hn in Hsrc.
    exact (rendered_keys Hsrc).
  - intros Hok.
    destruct (result (build_sources env inp s)) as [u|e] eqn:Hsrc;
      [| discriminate].
    assert (exists variables,
              In (EvRender variables (cpp_file env s))
                 (events (build_sources env inp s))) as [variables Hin].
    { revert Hsrc. unfold build_sources. intros Hsrc.
      apply bind_ok_inv in Hsrc as (u1 & H1 & Hsrc & _ & ->).
      rewrite maybe_make_generation_dir_quiet in *.
      rewrite run_bind_get in *. rewrite Hn in *.
      apply generate_ok_rendered in Hsrc as [variables Hin].
      exists variables. apply in_or_app. right. exact Hin. }
    exists variables. unfold compile_after.
    destruct (os_system env (os_cmd env s) =? 0)%Z; simpl;
      apply in_or_app; left; exact Hin.
Qed.

Lemma C9_witness :
  exists variables,
    In (EvRender variables "./_l4c_generated/l4casadi_f.cpp")
       (events (build Scenario.healthy Scenario.x21
                  (Scenario.fresh Scenario.torch_model true)))
    /\ map fst variables = template_keys.
Proof.
  destruct (@C9_template_variables Scenario.healthy Scenario.x21
              (Scenario.fresh Scenario.torch_model true) eq_refl)
    as [Hkeys Hrendered].
  destruct (Hrendered eq_refl) as [variables Hin].
  exists variables. split; [exact Hin |].
  exact (proj1 (Hkeys _ _ Hin)).
Defined.

(** ** The constructor *)

Example fresh_is_constructed :
  __init__ Scenario.healthy Scenario.torch_model true (DevText "cpu")
    "l4casadi_f" "./_l4c_generated" None true true
  = (Ok (Scenario.fresh Scenario.torch_model true),
     [EvModuleEvalTo (DevText "cpu"); EvFreezeParameters]).
Proof. reflexivity. Qed.

Example device_object_is_printed :
  device_text (DevObj "cuda" (Some 0)) = "cuda:0"
  /\ device_text (DevObj "cpu" None) = "cpu:None".
Proof. split; reflexivity. Qed.

(** ** Outcomes of [build] *)

Section BuildOutcome.

Variable env : Env.
Variable inp : CsMatrix.
Variable s : L4CasADi.

Lemma toolchain_runs_app l l' :
  toolchain_runs (l ++ l')%list = toolchain_runs l + toolchain_runs l'.
Proof. unfold toolchain_runs. now rewrite filter_app, length_app. Qed.

Lemma source_event_not_toolchain ev :
  source_event env s inp ev -> is_os_system ev = false.
Proof.
  unfold source_event. destruct ev; try reflexivity.
  destruct (naive s); simpl; contradiction.
Qed.

Lemma build_sources_no_toolchain :
  toolchain_runs (events (build_sources env inp s)) = 0.
Proof.
  destruct (build_sources_stays env inp s) as [_ Hlog].
  unfold emits_at in Hlog. unfold toolchain_runs.
  induction Hlog as [|ev l Hev _ IH]; [reflexivity |].
  simpl. now rewrite (source_event_not_toolchain ev Hev).
Qed.

(* A build that raises leaves the handle as it found it. *)
Lemma build_raise_keeps_handle e :
  result (build env inp s) = Raise e -> self_after (build env inp s) = s.
Proof.
  rewrite build_run.
  destruct (result (build_sources env inp s)); [| reflexivity].
  unfold compile_after.
  destruct (os_system env (os_cmd env s) =? 0)%Z; simpl;
    [discriminate | reflexivity].
Qed.

(* A build that returns has set [_built], and nothing else. *)
Lemma build_ok_built u :
  result (build env inp s) = Ok u ->
  self_after (build env inp s) = set_built true s.
Proof.
  rewrite build_run.
  destruct (result (build_sources env inp s)); [| discriminate].
  unfold compile_after.
  destruct (os_system env (os_cmd env s) =? 0)%Z; simpl;
    [reflexivity | discriminate].
Qed.

(* One build, at most one toolchain run. *)
Lemma build_toolchain_once :
  toolchain_runs (events (build env inp s)) <= 1.
Proof.
  rewrite build_run. pose proof build_sources_no_toolchain as H0.
  destruct (result (build_sources env inp s));
    [| cbn [events]; rewrite H0; lia].
  unfold compile_after.
  destruct (os_system env (os_cmd env s) =? 0)%Z; cbn [events];
    rewrite toolchain_runs_app, H0; cbn; lia.
Qed.

(* A build that returns ran the toolchain, which exited with status 0. *)
Lemma build_ok_compiled u :
  result (build env inp s) = Ok u ->
  os_system env (os_cmd env s) = 0%Z
  /\ events (build env inp s)
     = (events (build_sources env inp s) ++ [EvOsSystem (os_cmd env s)])%list.
Proof.
  rewrite build_run.
  destruct (result (build_sources env inp s)); [| discriminate].
  unfold compile_after.
  destruct (Z.eqb_spec (os_system env (os_cmd env s)) 0); simpl;
    [auto | discriminate].
Qed.

End BuildOutcome.

(** ** Compilation failures *)

(** C5, as stated, fails: the handle whose first build died in the toolchain
    is built by a second call once the toolchain works. *)
Lemma C5_counterexample :
  (exists cmd,
     result (build Scenario.toolchain_broken Scenario.x21
               (Scenario.fresh Scenario.torch_model true))
     = Raise (compilation_failed cmd))
  /\ result (build Scenario.toolchain_repaired Scenario.x21
               (self_after (build Scenario.toolchain_broken Scenario.x21
                              (Scenario.fresh Scenario.torch_model true))))
     = Ok tt
  /\ _built (self_after
               (build Scenario.toolchain_repaired Scenario.x21
                  (self_after (build Scenario.toolchain_broken Scenario.x21
                                 (Scenario.fresh Scenario.torch_model true)))))
     = true.
Proof.
  split; [| split].
  - exists (os_cmd Scenario.toolchain_broken
              (Scenario.fresh Scenario.torch_model true)).
    vm_compute. reflexivity.
  - vm_compute. reflexivity.
  - vm_compute. reflexivity.
Qed.

(** ** Naive mode *)

Lemma batch_check_run (batch : bool) inp s :
  when batch
    (when (negb (snd (shape inp) =? 1)%nat) (raise (ValueError batch_msg))) s
  = if batch && negb (snd (shape inp) =? 1)%nat
    then raise (ValueError batch_msg) s
    else ret tt s.
Proof.
  destruct batch; [| reflexivity].
  destruct (snd (shape inp) =? 1)%nat; reflexivity.
Qed.

(* [forward] on a naive handle applies the model and does nothing else. *)
Lemma forward_naive_run env inp s :
  naive s = true ->
  forward env inp s =
    if has_batch s && negb (snd (shape inp) =? 1)%nat
    then {| result := Raise (ValueError batch_msg);
            self_after := s; events := [] |}
    else {| result := outcome_of (naive_model_error env inp) (NaiveOut inp);
            self_after := s; events := [EvNaiveModelCall inp] |}.
Proof.
  intros Hn. unfold forward. rewrite run_bind_get, Hn.
  rewrite run_bind, batch_check_run.
  destruct (has_batch s && negb (snd (shape inp) =? 1)%nat); reflexivity.
Qed.

(* The naive branch of [build], when it gets through, has moved the
   generated source into the build directory. *)
Lemma naive_sources_moved env inp s u :
  naive s = true ->
  result (build_sources env inp s) = Ok u ->
  In (EvShutilMove (name s ++ ".cpp") (cpp_file env s))
     (events (build_sources env inp s)).
Proof.
  intros Hn. unfold build_sources, cpp_file. intros H.
  apply bind_ok_inv in H as (u1 & _ & H & _ & ->).
  apply in_or_app. right. revert H.
  rewrite maybe_make_generation_dir_quiet, run_bind_get, Hn.
  destruct (shape inp) as [rows cols].
  intros H.
  apply bind_ok_inv in H as (o & _ & H & _ & ->).
  apply bind_ok_inv in H as (u2 & _ & H & _ & ->).
  apply in_or_app. right. apply in_or_app. right. left. reflexivity.
Qed.


(** ** Evaluation before a build *)

(* [forward] on an unbuilt handle: the build, then [forward] on the built
   handle. *)
Lemma forward_unbuilt_run env inp s :
  naive s = false ->
  _built s = false ->
  has_batch s && negb (snd (shape inp) =? 1)%nat = false ->
  forward env inp s =
    match result (build env inp s) with
    | Ok _ =>
        prepend (events (build env inp s))
                (forward env inp (set_built true s))
    | Raise e =>
        {| result := Raise e; self_after := s;
           events := events (build env inp s) |}
    end.
Proof.
  intros Hn Hb Hcheck. unfold forward.
  rewrite !run_bind_get. cbn [naive has_batch _built set_built].
  rewrite Hn, Hb.
  rewrite !(run_bind (when (has_batch s) _)), !batch_check_run, Hcheck.
  cbn [result self_after events ret]. rewrite !prepend_nil.
  cbn [negb when]. rewrite run_bind_ret, run_bind.
  destruct (result (build env inp s)) as [u|e] eqn:Hbuild.
  - now rewrite (build_ok_built _ _ _ Hbuild).
  - now rewrite (build_raise_keeps_handle _ _ _ Hbuild).
Qed.

(** C3, as stated, fails: [forward] on a fresh handle builds it and returns
    the external function applied to the input. *)
Lemma C3_counterexample :
  naive (Scenario.fresh Scenario.torch_model true) = false
  /\ _built (Scenario.fresh Scenario.torch_model true) = false
  /\ result (forward Scenario.healthy Scenario.x21
               (Scenario.fresh Scenario.torch_model true))
     = Ok (ExternalOut
             {| cs_name := "l4casadi_f";
                cs_lib := "./_l4c_generated/libl4casadi_f.so" |}
             Scenario.x21)
  /\ _built (self_after (forward Scenario.healthy Scenario.x21
                           (Scenario.fresh Scenario.torch_model true)))
     = true
  /\ toolchain_runs
       (events (forward Scenario.healthy Scenario.x21
                  (Scenario.fresh Scenario.torch_model true))) = 1.
Proof. repeat split. Qed.

(** ** Jacobian export *)

(* The Jacobian trace is taken outside any try: what make_fx raises is what
   [export_torch_traces] raises. *)
Lemma jacobian_trace_failure_propagates env rows cols s e :
  _with_jacobian s = true ->
  tensor_to_error env (device s) = None ->
  forward_trace_error env s rows cols = None ->
  make_fx_error env Jacrev (probe s rows cols) = Some e ->
  export_torch_traces env rows cols s =
    {| result := Raise e; self_after := s;
       events :=
         [ EvTensorTo (if has_batch s then torch_zeros [1; rows]
                       else torch_zeros [rows; cols]) (device s);
           EvJitTrace UserModel (probe s rows cols);
           EvSave (Traced UserModel (probe s rows cols))
                  (as_posix env
                     (Div (build_dir s) (name s ++ "_forward.pt")));
           EvMakeFx Jacrev (probe s rows cols) ] |}.
Proof.
  intros Hw Ht Hf He. unfold forward_trace_error in Hf.
  destruct (jit_trace_error env UserModel (probe s rows cols)) eqn:Hj;
    [discriminate |].
  unfold export_torch_traces, tensor_to, torch_jit_trace, save,
    _trace_jac_model, make_fx.
  rewrite run_bind_get, Hw, d_inp_is_probe.
  repeat py_step. reflexivity.
Qed.

(* A Jacobian graph that cannot be serialized costs the flag only. *)
Lemma jacobian_serialization_failure_tolerated env rows cols s :
  _with_jacobian s = true ->
  _with_hessian s = false ->
  tensor_to_error env (device s) = None ->
  forward_trace_error env s rows cols = None ->
  make_fx_error env Jacrev (probe s rows cols) = None ->
  scripted_ok env (FxGraph Jacrev (probe s rows cols))
    (as_posix env (Div (build_dir s) (name s ++ "_jacrev.pt"))) = false ->
  traced_ok env (FxGraph Jacrev (probe s rows cols)) (probe s rows cols)
    (as_posix env (Div (build_dir s) (name s ++ "_jacrev.pt"))) = false ->
  result (export_torch_traces env rows cols s) = Ok (false, false).
Proof.
  intros Hwj Hwh Ht Hf Hm Hs Htr. unfold forward_trace_error in Hf.
  destruct (jit_trace_error env UserModel (probe s rows cols)) eqn:Hj;
    [discriminate |].
  unfold export_torch_traces, tensor_to, torch_jit_trace, save,
    _trace_jac_model, make_fx.
  rewrite run_bind_get, Hwj, Hwh, d_inp_is_probe.
  repeat py_step. rewrite Hs, Htr. reflexivity.
Qed.

(* Scenario: the Jacobian graph cannot be serialized.  The build goes on,
   prints the diagnostic, renders has_jac = "false", and [forward]
   returns. *)
Example unserializable_jacobian_degrades :
  let run := forward Scenario.jacobian_unserializable Scenario.x21
               (Scenario.fresh Scenario.torch_model true) in
  (exists out, result run = Ok out)
  /\ _built (self_after run) = true
  /\ In (EvPrint jac_diagnostic) (events run)
  /\ exists variables out_file,
       In (EvRender variables out_file) (events run)
       /\ lookup "has_jac" variables = Some (VStr "false").
Proof.
  vm_compute. split; [eexists; reflexivity |]. split; [reflexivity |].
  split.
  - do 11 right. left. reflexivity.
  - do 2 eexists. split; [do 14 right; left; reflexivity | reflexivity].
Qed.

(** C1 (the code falls short of it). With the Jacobian requested and
    make_fx unable to capture it, while the forward trace works: the
    exception leaves [forward], the handle stays unbuilt, the log stops at
    the failed capture, so no diagnostic is printed, nothing is rendered and
    nothing is compiled. *)
Theorem C1_jacobian_trace_failure_aborts_the_build :
  _with_jacobian (Scenario.fresh Scenario.torch_model true) = true
  /\ forward Scenario.jacobian_untraceable Scenario.x21
       (Scenario.fresh Scenario.torch_model true)
     = {| result := Raise (ForeignError "make_fx(jacrev)");
          self_after := Scenario.fresh Scenario.torch_model true;
          events :=
            [ EvPathExists (PathOf "./_l4c_generated");
              EvMakedirs (PathOf "./_l4c_generated");
              EvTensorTo (torch_zeros [1; 2]) "cpu";
              EvJitTrace UserModel (torch_zeros [1; 2]);
              EvSave (Traced UserModel (torch_zeros [1; 2]))
                     "./_l4c_generated/l4casadi_f_forward.pt";
              EvMakeFx Jacrev (torch_zeros [1; 2]) ] |}.
Proof. split; reflexivity. Qed.

(** ** Two-tier serialization *)

(** C2, as stated, fails for the forward trace: scripting the wrapped model
    and saving the script would both go through, yet the failure of
    torch.jit.trace alone is fatal, and no scripted attempt appears in the
    log. *)
Lemma C2_counterexample :
  scripted_ok Scenario.forward_untraceable UserModel
    "./_l4c_generated/l4casadi_f_forward.pt" = true
  /\ export_torch_traces Scenario.forward_untraceable 2 1
       (Scenario.fresh Scenario.torch_model true)
     = {| result := Raise (ForeignError "torch.jit.trace");
          self_after := Scenario.fresh Scenario.torch_model true;
          events := [ EvTensorTo (torch_zeros [1; 2]) "cpu";
                      EvJitTrace UserModel (torch_zeros [1; 2]) ] |}.
Proof. split; reflexivity. Qed.

(** * Further properties of the class *)

(** ** Lazy binding in [forward] *)

Lemma run_bind_modify {B} f (k : unit -> M B) s :
  bind (modify f) k s = k tt (f s).
Proof. rewrite run_bind. simpl. apply prepend_nil. Qed.

Lemma load_built_run env s :
  _built s = true ->
  _load_built_library_as_external_cs_fun env s =
    match cs_external_error env (name s) (lib_file env s) with
    | Some e =>
        {| result := Raise e; self_after := s;
           events := [EvCsExternal (name s) (lib_file env s)] |}
    | None =>
        {| result := Ok tt;
           self_after := set_cs_fun (Some (lib_function env s)) s;
           events := [EvCsExternal (name s) (lib_file env s)] |}
    end.
Proof.
  intros Hb. unfold _load_built_library_as_external_cs_fun, cs_external.
  rewrite run_bind_get, Hb. cbn [negb when]. rewrite run_bind_ret.
  fold (lib_file env s).
  destruct (cs_external_error env (name s) (lib_file env s));
    cbn [outcome_of]; [apply run_bind_call_raise |].
  rewrite run_bind_call_ok. reflexivity.
Qed.

(* [forward] on a built handle, the batch check having passed. *)
Lemma forward_built_run env inp s :
  naive s = false ->
  _built s = true ->
  has_batch s && negb (snd (shape inp) =? 1)%nat = false ->
  forward env inp s = bound_evaluation env inp s.
Proof.
  intros Hn Hb Hcheck.
  unfold forward, bound_evaluation.
  rewrite run_bind_get, Hn, run_bind, batch_check_run, Hcheck.
  cbn [result self_after events ret]. rewrite prepend_nil, Hb.
  cbn [negb when]. rewrite run_bind_ret, run_bind_get.
  destruct (_cs_fun s) as [f|] eqn:Hf; cbn [is_none when].
  - rewrite run_bind_ret, run_bind_get, Hf. reflexivity.
  - rewrite run_bind, (load_built_run env s Hb).
    destruct (cs_external_error env (name s) (lib_file env s));
      [reflexivity |].
    cbn [result self_after events]. rewrite run_bind_get.
    reflexivity.
Qed.

(* [forward] when the batch check fails, naive or not. *)
Lemma forward_check_fails_run env inp s :
  has_batch s && negb (snd (shape inp) =? 1)%nat = true ->
  forward env inp s =
    {| result := Raise (ValueError batch_msg);
       self_after := s; events := [] |}.
Proof.
  intros Hcheck. unfold forward.
  rewrite run_bind_get, run_bind, batch_check_run, Hcheck. reflexivity.
Qed.

Lemma vector_input_passes (s : L4CasADi) inp :
  (has_batch s = true -> snd (shape inp) = 1) ->
  has_batch s && negb (snd (shape inp) =? 1)%nat = false.
Proof.
  intros Hvec. destruct (has_batch s); [| reflexivity].
  now rewrite (Hvec eq_refl).
Qed.

(** X1. On a built, non-naive handle [forward] never builds and touches no
    file but the library: if the handle already holds the external function
    it only applies it; otherwise it binds the library once, keeps the
    function on the handle and applies it; if binding raises, the handle is
    left as it was. *)
Theorem forward_on_built_handle env inp s :
  naive s = false ->
  _built s = true ->
  (has_batch s = true -> snd (shape inp) = 1) ->
  forward env inp s = bound_evaluation env inp s.
Proof.
  intros Hn Hb Hvec.
  apply forward_built_run; auto using vector_input_passes.
Qed.

Lemma forward_on_built_handle_witness :
  forward Scenario.toolchain_broken Scenario.x21
    (set_built true (Scenario.fresh Scenario.torch_model true))
  = bound_evaluation Scenario.toolchain_broken Scenario.x21
      (set_built true (Scenario.fresh Scenario.torch_model true)).
Proof.
  apply forward_on_built_handle; reflexivity.
Defined.

(** ** What [forward] and [build] do to the handle *)

Lemma set_attributes_id (s : L4CasADi) :
  set_cs_fun (_cs_fun s) (set_built (_built s) s) = s.
Proof. destruct s; reflexivity. Qed.

(* The handle after the evaluation of a built handle. *)
Lemma bound_evaluation_state env inp s :
  self_after (bound_evaluation env inp s) = s
  \/ (_cs_fun s = None
      /\ self_after (bound_evaluation env inp s)
         = set_cs_fun (Some (lib_function env s)) s).
Proof.
  unfold bound_evaluation. destruct (_cs_fun s); [left; reflexivity |].
  destruct (cs_external_error env (name s) (lib_file env s));
    [left | right]; auto.
Qed.

Lemma bound_evaluation_ok env inp s out :
  result (bound_evaluation env inp s) = Ok out ->
  exists f,
    _cs_fun (self_after (bound_evaluation env inp s)) = Some f
    /\ out = ExternalOut f inp.
Proof.
  unfold bound_evaluation. destruct (_cs_fun s) as [f|] eqn:Hf.
  - cbn [result self_after]. intros H. exists f. split; [exact Hf |].
    destruct (cs_call_error env f inp); [discriminate |].
    now injection H as <-.
  - destruct (cs_external_error env (name s) (lib_file env s));
      [discriminate |].
    cbn [result self_after]. intros H. exists (lib_function env s).
    split; [reflexivity |].
    destruct (cs_call_error env (lib_function env s) inp); [discriminate |].
    now injection H as <-.
Qed.

(* The handle after [forward]: the one before, with [_built] possibly set
   and [_cs_fun] possibly filled in; never filled in without being built. *)
Lemma forward_state env inp s :
  exists b f,
    self_after (forward env inp s) = set_cs_fun f (set_built b s)
    /\ (b = _built s \/ b = true)
    /\ (f = _cs_fun s \/ (_cs_fun s = None /\ b = true)).
Proof.
  assert (exists b f, s = set_cs_fun f (set_built b s)
                      /\ (b = _built s \/ b = true)
                      /\ (f = _cs_fun s \/ (_cs_fun s = None /\ b = true)))
    as Hsame
    by (exists (_built s), (_cs_fun s);
        rewrite set_attributes_id; auto).
  destruct (naive s) eqn:Hn.
  { rewrite (forward_naive_run env inp s Hn).
    destruct (has_batch s && negb (snd (shape inp) =? 1)%nat); exact Hsame. }
  destruct (has_batch s && negb (snd (shape inp) =? 1)%nat) eqn:Hcheck.
  { rewrite (forward_check_fails_run env inp s Hcheck). exact Hsame. }
  destruct (_built s) eqn:Hb.
  - rewrite (forward_built_run env inp s Hn Hb Hcheck).
    destruct (bound_evaluation_state env inp s) as [-> | [Hf ->]].
    + exact Hsame.
    + exists true, (Some (lib_function env s)).
      replace (set_built true s) with s; auto.
      destruct s; simpl in *; subst; reflexivity.
  - rewrite (forward_unbuilt_run env inp s Hn Hb Hcheck).
    destruct (result (build env inp s)); [| exact Hsame].
    cbn [prepend self_after].
    rewrite (forward_built_run env inp (set_built true s) Hn eq_refl Hcheck).
    destruct (bound_evaluation_state env inp (set_built true s))
      as [-> | [Hf ->]].
    + exists true, (_cs_fun s). split; [| auto].
      destruct s; reflexivity.
    + exists true, (Some (lib_function env (set_built true s))). auto.
Qed.

Lemma build_state env inp s :
  self_after (build env inp s) = s
  \/ (self_after (build env inp s) = set_built true s
      /\ result (build env inp s) = Ok tt).
Proof.
  rewrite build_run.
  destruct (result (build_sources env inp s)); [| left; reflexivity].
  unfold compile_after.
  destruct (os_system env (os_cmd env s) =? 0)%Z; [right | left]; auto.
Qed.

(** X2. [forward] changes nothing on the handle but [_built] and [_cs_fun],
    and those only forwards: whatever the constructor fixed stays, a built
    handle stays built, and an external function once bound is never
    replaced nor dropped. *)
Theorem forward_preserves_handle env inp s :
  same_config s (self_after (forward env inp s))
  /\ (_built s = true -> _built (self_after (forward env inp s)) = true)
  /\ (forall f, _cs_fun s = Some f ->
                _cs_fun (self_after (forward env inp s)) = Some f).
Proof.
  destruct (forward_state env inp s) as (b & f & -> & Hb & Hf).
  split; [| split].
  - repeat split.
  - intros H. cbn. destruct Hb as [-> | ->]; auto.
  - intros f0 H0. cbn. destruct Hf as [-> | [Hnone _]]; congruence.
Qed.

Lemma forward_preserves_handle_witness :
  _cs_fun (self_after
             (forward Scenario.toolchain_broken Scenario.x21
                (set_cs_fun (Some (lib_function Scenario.healthy
                                     (Scenario.fresh Scenario.torch_model true)))
                   (Scenario.fresh Scenario.torch_model true))))
  = Some (lib_function Scenario.healthy
            (Scenario.fresh Scenario.torch_model true)).
Proof.
  apply (proj2 (proj2 (forward_preserves_handle Scenario.toolchain_broken
                         Scenario.x21 _))).
  reflexivity.
Defined.

(** X3. "A handle that holds an external function has been built" is an
    invariant of the class: the constructor establishes it, and [forward],
    [build] and [_load_built_library_as_external_cs_fun] preserve it,
    whether they return or raise. *)
Theorem bound_implies_built_invariant :
  (forall env m batch dev nm dir path wj wh s,
     fst (__init__ env m batch dev nm dir path wj wh) = Ok s ->
     bound_implies_built s)
  /\ (forall env inp s,
        bound_implies_built s ->
        bound_implies_built (self_after (forward env inp s))
        /\ bound_implies_built (self_after (build env inp s))
        /\ bound_implies_built
             (self_after (_load_built_library_as_external_cs_fun env s))).
Proof.
  split.
  - intros env m batch dev nm dir path wj wh s. unfold __init__.
    destruct (is_nn_module m); [destruct (module_to_error env dev) |];
      cbn [fst]; try discriminate;
      intros H; injection H as <-; intros Hf; now elim Hf.
  - intros env inp s Hinv. split; [| split].
    + destruct (forward_state env inp s) as (b & f & -> & Hb & Hf).
      intros Hbound. cbn in *.
      destruct Hf as [-> | [_ ->]]; [| reflexivity].
      destruct Hb as [-> | ->]; auto.
    + destruct (build_state env inp s) as [-> | [-> _]];
        [exact Hinv | intros _; reflexivity].
    + destruct (_built s) eqn:Hb.
      * rewrite (load_built_run env s Hb).
        destruct (cs_external_error env (name s) (lib_file env s));
          [exact Hinv | intros _; exact Hb].
      * unfold _load_built_library_as_external_cs_fun.
        rewrite run_bind_get, Hb. cbn [negb when].
        rewrite run_bind_raise. exact Hinv.
Qed.

Lemma bound_implies_built_invariant_witness :
  bound_implies_built
    (self_after (forward Scenario.healthy Scenario.x21
                   (Scenario.fresh Scenario.torch_model true))).
Proof.
  apply (proj1 (proj2 bound_implies_built_invariant
                  Scenario.healthy Scenario.x21
                  (Scenario.fresh Scenario.torch_model true)
                  (fun H => match H eq_refl with end))).
Defined.

(* A [forward] that returns leaves a built and bound non-naive handle. *)
Lemma forward_ok_bound env inp s out :
  naive s = false ->
  result (forward env inp s) = Ok out ->
  exists f,
    _built (self_after (forward env inp s)) = true
    /\ _cs_fun (self_after (forward env inp s)) = Some f
    /\ out = ExternalOut f inp.
Proof.
  intros Hn.
  destruct (has_batch s && negb (snd (shape inp) =? 1)%nat) eqn:Hcheck.
  { rewrite (forward_check_fails_run env inp s Hcheck). discriminate. }
  assert (forall s0, _built s0 = true ->
            result (bound_evaluation env inp s0) = Ok out ->
            exists f,
              _built (self_after (bound_evaluation env inp s0)) = true
              /\ _cs_fun (self_after (bound_evaluation env inp s0)) = Some f
              /\ out = ExternalOut f inp) as Hbound.
  { intros s0 Hb0 Hok.
    destruct (bound_evaluation_ok env inp s0 Hok) as (f & Hf & ->).
    exists f. split; [| auto].
    destruct (bound_evaluation_state env inp s0) as [-> | [_ ->]];
      exact Hb0. }
  destruct (_built s) eqn:Hb.
  - rewrite (forward_built_run env inp s Hn Hb Hcheck). now apply Hbound.
  - rewrite (forward_unbuilt_run env inp s Hn Hb Hcheck).
    destruct (result (build env inp s)); [| discriminate].
    cbn [prepend result self_after].
    rewrite (forward_built_run env inp (set_built true s) Hn eq_refl Hcheck).
    now apply Hbound.
Qed.

(** X4. The external function is bound at most once: after a [forward] on
    a non-naive handle has returned, every further [forward] on that handle
    (on a vector input if the model is batched), in whatever state the
    outside world is by then, neither builds nor binds; it applies the
    function the first call returned through, and leaves the handle as it
    is. *)
Theorem forward_binds_once env env' inp inp' s out :
  naive s = false ->
  result (forward env inp s) = Ok out ->
  (has_batch s = true -> snd (shape inp') = 1) ->
  exists f,
    out = ExternalOut f inp
    /\ forward env' inp' (self_after (forward env inp s)) =
         {| result := outcome_of (cs_call_error env' f inp')
                                 (ExternalOut f inp');
            self_after := self_after (forward env inp s);
            events := [EvCsCall f inp'] |}.
Proof.
  intros Hn Hok Hvec.
  destruct (forward_ok_bound env inp s Hn Hok) as (f & Hb & Hf & ->).
  exists f. split; [reflexivity |].
  destruct (forward_state env inp s) as (b & f0 & Hstate & _).
  assert (naive (self_after (forward env inp s)) = naive s
          /\ has_batch (self_after (forward env inp s)) = has_batch s)
    as [Hn' Hbatch] by (rewrite Hstate; split; reflexivity).
  rewrite forward_built_run; auto.
  - unfold bound_evaluation. now rewrite Hf.
  - congruence.
  - rewrite Hbatch. now apply vector_input_passes.
Qed.

Lemma forward_binds_once_witness :
  exists f,
    forward Scenario.toolchain_broken Scenario.x21
      (self_after (forward Scenario.healthy Scenario.x21
                     (Scenario.fresh Scenario.torch_model true)))
    = {| result := Ok (ExternalOut f Scenario.x21);
         self_after :=
           self_after (forward Scenario.healthy Scenario.x21
                         (Scenario.fresh Scenario.torch_model true));
         events := [EvCsCall f Scenario.x21] |}.
Proof.
  destruct (@forward_binds_once Scenario.healthy Scenario.toolchain_broken
              Scenario.x21 Scenario.x21
              (Scenario.fresh Scenario.torch_model true) _
              eq_refl eq_refl (fun _ => eq_refl)) as (f & _ & Hrun).
  exists f. exact Hrun.
Defined.

(** X5. [build] never touches the binding. Rebuilding a handle that already
    holds an external function keeps that function, so a later [forward]
    applies the function bound before the rebuild without loading the new
    library. *)
Theorem rebuild_keeps_binding env env' inp inp' s f :
  naive s = false ->
  _cs_fun s = Some f ->
  (has_batch s = true -> snd (shape inp') = 1) ->
  _cs_fun (self_after (build env inp s)) = Some f
  /\ (result (build env inp s) = Ok tt ->
      forward env' inp' (self_after (build env inp s)) =
        {| result := outcome_of (cs_call_error env' f inp')
                                (ExternalOut f inp');
           self_after := self_after (build env inp s);
           events := [EvCsCall f inp'] |}).
Proof.
  intros Hn Hf Hvec. split.
  - destruct (build_state env inp s) as [-> | [-> _]]; exact Hf.
  - intros Hok. rewrite (build_ok_built _ _ _ Hok).
    rewrite forward_built_run; auto.
    + unfold bound_evaluation. cbn [_cs_fun set_built]. now rewrite Hf.
    + now apply vector_input_passes.
Qed.

Lemma rebuild_keeps_binding_witness :
  forward Scenario.healthy Scenario.x21
    (self_after
       (build Scenario.healthy Scenario.x21
          (set_cs_fun (Some {| cs_name := "old"; cs_lib := "libold.so" |})
             (Scenario.fresh Scenario.torch_model true))))
  = {| result := Ok (ExternalOut {| cs_name := "old"; cs_lib := "libold.so" |}
                       Scenario.x21);
       self_after :=
         self_after
           (build Scenario.healthy Scenario.x21
              (set_cs_fun (Some {| cs_name := "old"; cs_lib := "libold.so" |})
                 (Scenario.fresh Scenario.torch_model true)));
       events := [EvCsCall {| cs_name := "old"; cs_lib := "libold.so" |}
                    Scenario.x21] |}.
Proof.
  apply (proj2 (@rebuild_keeps_binding Scenario.healthy Scenario.healthy
                  Scenario.x21 Scenario.x21
                  (set_cs_fun
                     (Some {| cs_name := "old"; cs_lib := "libold.so" |})
                     (Scenario.fresh Scenario.torch_model true))
                  {| cs_name := "old"; cs_lib := "libold.so" |}
                  eq_refl eq_refl (fun _ => eq_refl))).
  reflexivity.
Defined.

(** ** What [export_torch_traces] exports *)

(* The flags of an export that got through its mandatory steps. *)
Lemma export_flags_run env rows cols s :
  tensor_to_error env (device s) = None ->
  forward_trace_error env s rows cols = None ->
  (_with_jacobian s = true ->
   make_fx_error env Jacrev (probe s rows cols) = None) ->
  result (export_torch_traces env rows cols s)
  = Ok (_with_jacobian s
        && serialized env (FxGraph Jacrev (probe s rows cols))
             (probe s rows cols) (jacrev_file env s),
        _with_hessian s
        && is_none (make_fx_error env Hessian (probe s rows cols))
        && serialized env (FxGraph Hessian (probe s rows cols))
             (probe s rows cols) (hess_file env s))
  /\ self_after (export_torch_traces env rows cols s) = s.
Proof.
  intros Ht Hf Hjac. unfold forward_trace_error in Hf.
  destruct (jit_trace_error env UserModel (probe s rows cols)) eqn:Hj;
    [discriminate |].
  unfold export_torch_traces, tensor_to, torch_jit_trace, save,
    _trace_jac_model, make_fx, serialized, jacrev_file, hess_file.
  rewrite run_bind_get, d_inp_is_probe.
  destruct (_with_jacobian s); [specialize (Hjac eq_refl) | clear Hjac];
    destruct (_with_hessian s);
    destruct (make_fx_error env Hessian (probe s rows cols)) eqn:Hh;
    repeat py_step; cbn [result self_after prepend is_none andb];
    rewrite ?andb_true_r; split; reflexivity.
Qed.

(** X6. Once the probe tensor, the forward trace and, if requested, the
    Jacobian capture have gone through, [export_torch_traces] cannot raise
    any more: it returns, with the Jacobian flag saying that the Jacobian
    was requested and one serialization tier went through, and the Hessian
    flag saying the same of the Hessian and, in addition, that its capture
    did not raise.  The handle is untouched. *)
Theorem export_flags env rows cols s :
  tensor_to_error env (device s) = None ->
  forward_trace_error env s rows cols = None ->
  (_with_jacobian s = true ->
   make_fx_error env Jacrev (probe s rows cols) = None) ->
  result (export_torch_traces env rows cols s)
  = Ok (_with_jacobian s
        && serialized env (FxGraph Jacrev (probe s rows cols))
             (probe s rows cols) (jacrev_file env s),
        _with_hessian s
        && is_none (make_fx_error env Hessian (probe s rows cols))
        && serialized env (FxGraph Hessian (probe s rows cols))
             (probe s rows cols) (hess_file env s))
  /\ self_after (export_torch_traces env rows cols s) = s.
Proof. apply export_flags_run. Qed.

Lemma export_flags_witness :
  result (export_torch_traces Scenario.jacobian_unserializable 2 1
            (Scenario.fresh Scenario.torch_model true))
  = Ok (false, true).
Proof.
  apply (@export_flags Scenario.jacobian_unserializable 2 1
           (Scenario.fresh Scenario.torch_model true)
           eq_refl eq_refl (fun _ => eq_refl)).
Defined.

(* An export that returns got through its mandatory steps. *)
Lemma export_ok_inv env rows cols s flags :
  result (export_torch_traces env rows cols s) = Ok flags ->
  tensor_to_error env (device s) = None
  /\ forward_trace_error env s rows cols = None
  /\ (_with_jacobian s = true ->
      make_fx_error env Jacrev (probe s rows cols) = None).
Proof.
  unfold forward_trace_error.
  unfold export_torch_traces, tensor_to, torch_jit_trace, save,
    _trace_jac_model, make_fx.
  rewrite run_bind_get, d_inp_is_probe.
  destruct (make_fx_error env Hessian (probe s rows cols)) eqn:Hh;
    repeat py_step; cbn [result prepend];
    try discriminate; intros _; repeat split; auto; congruence.
Qed.

Lemma export_requested_events env rows cols s :
  stays s (requested_event s) (export_torch_traces env rows cols).
Proof.
  unfold export_torch_traces.
  apply stays_bind_get.
  apply stays_bind_res.
  { apply stays_call. exact I. }
  intros d Hd. unfold tensor_to in Hd. py_returned.
  rewrite d_inp_is_probe.
  unfold torch_jit_trace, save, _trace_jac_model, _trace_hess_model, make_fx.
  destruct (_with_jacobian s) eqn:Hwj; destruct (_with_hessian s) eqn:Hwh;
    py_walk; unfold ts_compile, torch_jit_trace in *; py_returned;
    try match goal with
        | H : result (try_except _ _ _) = Ok (Some _) |- _ =>
            apply guarded_hessian_trace in H;
            destruct H as [H | [H _]]; [discriminate | injection H as ->]
        end;
    try apply jit_compile_and_save_stays;
    simpl; auto.
Qed.

(** X7. [export_torch_traces] attempts only what was requested: without
    with_jacobian no Jacobian is captured, scripted, traced or saved, and
    likewise for the Hessian; and a flag it returns as True belongs to a
    derivative that was requested.  It returns only if moving the probe to
    the device, the forward trace and its save, and (if requested) the
    Jacobian capture all went through. *)
Theorem export_only_what_is_requested env rows cols s :
  Forall (requested_event s) (events (export_torch_traces env rows cols s))
  /\ (forall has_jac has_hess,
        result (export_torch_traces env rows cols s) = Ok (has_jac, has_hess) ->
        (has_jac = true -> _with_jacobian s = true)
        /\ (has_hess = true -> _with_hessian s = true)
        /\ tensor_to_error env (device s) = None
        /\ forward_trace_error env s rows cols = None
        /\ (_with_jacobian s = true ->
            make_fx_error env Jacrev (probe s rows cols) = None)).
Proof.
  split.
  - apply export_requested_events.
  - intros hj hh Hok.
    destruct (export_ok_inv env rows cols s Hok) as (Ht & Hf & Hm).
    destruct (export_flags_run env rows cols s Ht Hf Hm) as [Hflags _].
    rewrite Hflags in Hok. injection Hok as <- <-.
    repeat split; auto.
    + intros H. now apply andb_prop in H as [H _].
    + intros H. apply andb_prop in H as [H _].
      now apply andb_prop in H as [H _].
Qed.

Lemma export_only_what_is_requested_witness :
  Forall (requested_event
            (set_with_hessian false (Scenario.fresh Scenario.torch_model true)))
         (events (export_torch_traces Scenario.healthy 2 1
                    (set_with_hessian false
                       (Scenario.fresh Scenario.torch_model true))))
  /\ tensor_to_error Scenario.healthy "cpu" = None.
Proof.
  destruct (export_only_what_is_requested Scenario.healthy 2 1
              (set_with_hessian false
                 (Scenario.fresh Scenario.torch_model true)))
    as [Hlog Hres].
  split; [exact Hlog |].
  exact (proj1 (proj2 (proj2 (Hres true false eq_refl)))).
Defined.

(* The log of an export that got through its mandatory steps. *)
Lemma export_events env rows cols s :
  tensor_to_error env (device s) = None ->
  forward_trace_error env s rows cols = None ->
  (_with_jacobian s = true ->
   make_fx_error env Jacrev (probe s rows cols) = None) ->
  events (export_torch_traces env rows cols s) =
    ([ EvTensorTo (if has_batch s then torch_zeros [1; rows]
                   else torch_zeros [rows; cols]) (device s);
       EvJitTrace UserModel (probe s rows cols);
       EvSave (Traced UserModel (probe s rows cols)) (forward_file env s) ]
     ++ (if _with_jacobian s
         then EvMakeFx Jacrev (probe s rows cols)
              :: two_tier_log env (FxGraph Jacrev (probe s rows cols))
                   (probe s rows cols) (jacrev_file env s)
         else [])
     ++ (if _with_hessian s
         then EvMakeFx Hessian (probe s rows cols)
              :: (if is_none (make_fx_error env Hessian (probe s rows cols))
                  then two_tier_log env (FxGraph Hessian (probe s rows cols))
                         (probe s rows cols) (hess_file env s)
                  else [])
         else []))%list.
Proof.
  intros Ht Hf Hjac. unfold forward_trace_error in Hf.
  destruct (jit_trace_error env UserModel (probe s rows cols)) eqn:Hj;
    [discriminate |].
  unfold export_torch_traces, tensor_to, torch_jit_trace, save,
    _trace_jac_model, make_fx, two_tier_log, forward_file, jacrev_file,
    hess_file.
  rewrite run_bind_get, d_inp_is_probe.
  destruct (_with_jacobian s); [specialize (Hjac eq_refl) | clear Hjac];
    destruct (_with_hessian s);
    destruct (make_fx_error env Hessian (probe s rows cols)) eqn:Hh;
    repeat py_step; cbn [events prepend ret is_none];
    rewrite ?app_nil_r, <- ?app_assoc; cbn [app];
    rewrite ?app_nil_r, <- ?app_assoc; reflexivity.
Qed.

(* A serialization that went through has saved the file. *)
Lemma two_tier_saved env m x file :
  serialized env m x file = true ->
  exists sm,
    In (EvSave sm file) (two_tier_log env m x file)
    /\ save_error env sm file = None
    /\ (sm = Scripted m \/ sm = Traced m x).
Proof.
  unfold serialized, two_tier_log, scripted_ok, traced_ok, scripted_attempt,
    traced_attempt.
  destruct (ts_compile_error env m); cbn [is_none andb orb].
  - destruct (jit_trace_error env m x); cbn [is_none andb];
      [discriminate |].
    destruct (save_error env (Traced m x) file) eqn:Hs; [discriminate |].
    intros _. exists (Traced m x). cbn. auto.
  - destruct (save_error env (Scripted m) file) eqn:Hs; cbn [is_none orb].
    + destruct (jit_trace_error env m x); cbn [is_none andb];
        [discriminate |].
      destruct (save_error env (Traced m x) file) eqn:Hs'; [discriminate |].
      intros _. exists (Traced m x). cbn. auto 6.
    + intros _. exists (Scripted m). cbn. auto.
Qed.

(* Flags returned as True are backed by saved files. *)
Lemma exported_flags_backed env rows cols s has_jac has_hess :
  result (export_torch_traces env rows cols s) = Ok (has_jac, has_hess) ->
  let log := events (export_torch_traces env rows cols s) in
  let p := probe s rows cols in
  (In (EvSave (Traced UserModel p) (forward_file env s)) log
   /\ save_error env (Traced UserModel p) (forward_file env s) = None)
  /\ (has_jac = true ->
      exists sm,
        In (EvSave sm (jacrev_file env s)) log
        /\ save_error env sm (jacrev_file env s) = None
        /\ (sm = Scripted (FxGraph Jacrev p)
            \/ sm = Traced (FxGraph Jacrev p) p))
  /\ (has_hess = true ->
      exists sm,
        In (EvSave sm (hess_file env s)) log
        /\ save_error env sm (hess_file env s) = None
        /\ (sm = Scripted (FxGraph Hessian p)
            \/ sm = Traced (FxGraph Hessian p) p)).
Proof.
  intros Hok log p. subst log p.
  destruct (export_ok_inv env rows cols s Hok) as (Ht & Hf & Hm).
  destruct (export_flags_run env rows cols s Ht Hf Hm) as [Hflags _].
  rewrite (export_events env rows cols s Ht Hf Hm).
  rewrite Hflags in Hok. injection Hok as <- <-.
  split; [| split].
  - split; [cbn; auto |].
    unfold forward_trace_error in Hf. unfold forward_file.
    destruct (jit_trace_error env UserModel (probe s rows cols));
      [discriminate | exact Hf].
  - intros H. apply andb_prop in H as [Hw Hser]. rewrite Hw.
    destruct (two_tier_saved _ _ _ _ Hser) as (sm & Hin & Hsave & Hsm).
    exists sm. split; [| auto].
    apply in_or_app. right. apply in_or_app. left. right. exact Hin.
  - intros H. apply andb_prop in H as [H Hser].
    apply andb_prop in H as [Hw Hcap]. rewrite Hw, Hcap.
    destruct (two_tier_saved _ _ _ _ Hser) as (sm & Hin & Hsave & Hsm).
    exists sm. split; [| auto].
    apply in_or_app. right. apply in_or_app. right. right. exact Hin.
Qed.

(** X8. The flags of [export_torch_traces] are backed by files.  Whenever
    it returns, the forward trace has been saved to
    build_dir / (name + "_forward.pt") without error; a Jacobian flag True
    means a scripted or traced Jacobian graph has been saved without error
    to build_dir / (name + "_jacrev.pt"), and a Hessian flag True the same
    for build_dir / (name + "_hess.pt"). *)
Theorem exported_flags_are_backed_by_files env rows cols s has_jac has_hess :
  result (export_torch_traces env rows cols s) = Ok (has_jac, has_hess) ->
  let log := events (export_torch_traces env rows cols s) in
  let p := probe s rows cols in
  (In (EvSave (Traced UserModel p) (forward_file env s)) log
   /\ save_error env (Traced UserModel p) (forward_file env s) = None)
  /\ (has_jac = true ->
      exists sm,
        In (EvSave sm (jacrev_file env s)) log
        /\ save_error env sm (jacrev_file env s) = None
        /\ (sm = Scripted (FxGraph Jacrev p)
            \/ sm = Traced (FxGraph Jacrev p) p))
  /\ (has_hess = true ->
      exists sm,
        In (EvSave sm (hess_file env s)) log
        /\ save_error env sm (hess_file env s) = None
        /\ (sm = Scripted (FxGraph Hessian p)
            \/ sm = Traced (FxGraph Hessian p) p)).
Proof. apply exported_flags_backed. Qed.

Lemma exported_flags_are_backed_by_files_witness :
  exists sm,
    In (EvSave sm (jacrev_file Scenario.healthy
                     (Scenario.fresh Scenario.torch_model true)))
       (events (export_torch_traces Scenario.healthy 2 1
                  (Scenario.fresh Scenario.torch_model true)))
    /\ save_error Scenario.healthy sm
         (jacrev_file Scenario.healthy
            (Scenario.fresh Scenario.torch_model true)) = None.
Proof.
  destruct (@exported_flags_are_backed_by_files Scenario.healthy 2 1
              (Scenario.fresh Scenario.torch_model true) true true eq_refl)
    as (_ & Hjac & _).
  destruct (Hjac eq_refl) as (sm & Hin & Hsave & _).
  exists sm. split; assumption.
Defined.

(** ** What [generate] prints and renders *)

Lemma run_bind_when_print {B} b msg (k : unit -> M B) s :
  bind (when b (print msg)) k s
  = prepend (if b then [EvPrint msg] else []) (k tt s).
Proof.
  destruct b; cbn [when].
  - unfold print. apply run_bind_call_ok.
  - rewrite run_bind_ret. symmetry. apply prepend_nil.
Qed.

Lemma export_quiet env rows cols s :
  self_after (export_torch_traces env rows cols s) = s.
Proof. apply (export_requested_events env rows cols s). Qed.

(* [generate] after an export that returned. *)
Lemma generate_run_ok env inp s has_jac has_hess :
  result (export_torch_traces env (fst (shape inp)) (snd (shape inp)) s)
  = Ok (has_jac, has_hess) ->
  generate env inp s =
    prepend
      (events (export_torch_traces env (fst (shape inp)) (snd (shape inp)) s)
       ++ (if negb has_jac && _with_jacobian s
           then [EvPrint jac_diagnostic] else [])
       ++ (if negb has_hess && _with_hessian s
           then [EvPrint hess_diagnostic] else []))%list
      (_generate_cpp_function_template env (fst (shape inp))
         (snd (shape inp)) has_jac has_hess s).
Proof.
  unfold generate. destruct (shape inp) as [rows cols]. cbn [fst snd].
  intros Hok. rewrite run_bind, Hok, export_quiet.
  rewrite run_bind_get, !run_bind_when_print, !prepend_prepend.
  now rewrite <- app_assoc.
Qed.

(* [generate] after an export that raised. *)
Lemma generate_run_raise env inp s e :
  result (export_torch_traces env (fst (shape inp)) (snd (shape inp)) s)
  = Raise e ->
  generate env inp s =
    {| result := Raise e; self_after := s;
       events := events (export_torch_traces env (fst (shape inp))
                           (snd (shape inp)) s) |}.
Proof.
  unfold generate. destruct (shape inp) as [rows cols]. cbn [fst snd].
  intros Hraise. now rewrite run_bind, Hraise, export_quiet.
Qed.

Lemma template_flag_events env rows cols has_jac has_hess s :
  stays s (template_event has_jac has_hess)
        (_generate_cpp_function_template env rows cols has_jac has_hess).
Proof.
  unfold _generate_cpp_function_template.
  apply stays_bind_get. apply stays_bind.
  - unfold tensor_to, self_model, index_last, index_0, unpack_2.
    py_walk; exact I.
  - intros [ro co]. apply stays_call. split; reflexivity.
Qed.

Lemma export_never_prints env rows cols s msg :
  ~ In (EvPrint msg) (events (export_torch_traces env rows cols s)).
Proof.
  intros Hin.
  destruct (export_requested_events env rows cols s) as [_ Hlog].
  unfold emits_at in Hlog. rewrite Forall_forall in Hlog.
  exact (Hlog _ Hin).
Qed.

Lemma export_never_renders env rows cols s variables out_file :
  ~ In (EvRender variables out_file)
       (events (export_torch_traces env rows cols s)).
Proof.
  intros Hin.
  destruct (export_requested_events env rows cols s) as [_ Hlog].
  unfold emits_at in Hlog. rewrite Forall_forall in Hlog.
  exact (Hlog _ Hin).
Qed.

Lemma template_never_prints env rows cols has_jac has_hess s msg :
  ~ In (EvPrint msg)
       (events (_generate_cpp_function_template env rows cols
                  has_jac has_hess s)).
Proof.
  intros Hin.
  destruct (template_flag_events env rows cols has_jac has_hess s)
    as [_ Hlog].
  unfold emits_at in Hlog. rewrite Forall_forall in Hlog.
  exact (Hlog _ Hin).
Qed.

(** X9. [generate] prints the Jacobian diagnostic exactly when the export
    returned with the Jacobian flag False although the Jacobian was
    requested, and the Hessian diagnostic exactly when it returned with the
    Hessian flag False although the Hessian was requested; in particular
    nothing is printed for a derivative that was not requested, nor when
    the export raised. *)
Theorem diagnostics_when_requested_and_missing env inp s :
  let export :=
    export_torch_traces env (fst (shape inp)) (snd (shape inp)) s in
  (In (EvPrint jac_diagnostic) (events (generate env inp s))
   <-> (exists has_hess, result export = Ok (false, has_hess))
       /\ _with_jacobian s = true)
  /\ (In (EvPrint hess_diagnostic) (events (generate env inp s))
      <-> (exists has_jac, result export = Ok (has_jac, false))
          /\ _with_hessian s = true).
Proof.
  intros export. subst export.
  destruct (result (export_torch_traces env (fst (shape inp))
                      (snd (shape inp)) s)) as [[hj hh]|e] eqn:Hexp.
  - rewrite (generate_run_ok env inp s Hexp). cbn [events prepend].
    split; split.
    + intros Hin. rewrite !in_app_iff in Hin.
      destruct Hin as [[Hin | [Hin | Hin]] | Hin].
      * now apply export_never_prints in Hin.
      * destruct hj; [destruct Hin |].
        destruct (_with_jacobian s); [eauto | destruct Hin].
      * destruct (negb hh && _with_hessian s); [| destruct Hin].
        destruct Hin as [Hin | []]. discriminate Hin.
      * now apply template_never_prints in Hin.
    + intros [[hh' Hok] Hw]. injection Hok as -> _. rewrite Hw.
      rewrite !in_app_iff. left. right. left. left. reflexivity.
    + intros Hin. rewrite !in_app_iff in Hin.
      destruct Hin as [[Hin | [Hin | Hin]] | Hin].
      * now apply export_never_prints in Hin.
      * destruct (negb hj && _with_jacobian s); [| destruct Hin].
        destruct Hin as [Hin | []]. discriminate Hin.
      * destruct hh; [destruct Hin |].
        destruct (_with_hessian s); [eauto | destruct Hin].
      * now apply template_never_prints in Hin.
    + intros [[hj' Hok] Hw]. injection Hok as _ ->. rewrite Hw.
      rewrite !in_app_iff. left. right. right. left. reflexivity.
  - rewrite (generate_run_raise env inp s Hexp). cbn [events].
    split; split;
      try (intros Hin; now apply export_never_prints in Hin);
      intros [[? Hok] _]; discriminate.
Qed.

Lemma diagnostics_when_requested_and_missing_witness :
  In (EvPrint jac_diagnostic)
     (events (generate Scenario.jacobian_unserializable Scenario.x21
                (Scenario.fresh Scenario.torch_model true))).
Proof.
  apply (proj1 (diagnostics_when_requested_and_missing
                  Scenario.jacobian_unserializable Scenario.x21
                  (Scenario.fresh Scenario.torch_model true))).
  split; [exists true |]; reflexivity.
Defined.

(** X10. The availability flags in the rendered source are the flags the
    export returned, so they are backed by files: whenever [generate] hands
    has_jac = "true" to the renderer, a Jacobian graph was saved without
    error to build_dir / (name + "_jacrev.pt") earlier in the same run, and
    has_hess = "true" likewise for build_dir / (name + "_hess.pt"). *)
Theorem rendered_flags_are_backed_by_files env inp s variables out_file :
  In (EvRender variables out_file) (events (generate env inp s)) ->
  (exists has_jac has_hess,
     result (export_torch_traces env (fst (shape inp)) (snd (shape inp)) s)
     = Ok (has_jac, has_hess)
     /\ lookup "has_jac" variables = Some (VStr (py_bool_literal has_jac))
     /\ lookup "has_hess" variables = Some (VStr (py_bool_literal has_hess)))
  /\ (lookup "has_jac" variables = Some (VStr "true") ->
      exists sm,
        In (EvSave sm (jacrev_file env s)) (events (generate env inp s))
        /\ save_error env sm (jacrev_file env s) = None)
  /\ (lookup "has_hess" variables = Some (VStr "true") ->
      exists sm,
        In (EvSave sm (hess_file env s)) (events (generate env inp s))
        /\ save_error env sm (hess_file env s) = None).
Proof.
  destruct (result (export_torch_traces env (fst (shape inp))
                      (snd (shape inp)) s)) as [[hj hh]|e] eqn:Hexp.
  - rewrite (generate_run_ok env inp s Hexp). cbn [events prepend].
    intros Hin. rewrite !in_app_iff in Hin.
    assert (In (EvRender variables out_file)
               (events (_generate_cpp_function_template env
                          (fst (shape inp)) (snd (shape inp)) hj hh s)))
      as Hrender.
    { destruct Hin as [[Hin | [Hin | Hin]] | Hin]; [| | | exact Hin].
      - now apply export_never_renders in Hin.
      - destruct (negb hj && _with_jacobian s);
          [destruct Hin as [Hin | []]; discriminate | destruct Hin].
      - destruct (negb hh && _with_hessian s);
          [destruct Hin as [Hin | []]; discriminate | destruct Hin]. }
    destruct (template_flag_events env (fst (shape inp)) (snd (shape inp))
                hj hh s) as [_ Hlog].
    unfold emits_at in Hlog. rewrite Forall_forall in Hlog.
    destruct (Hlog _ Hrender) as [Hj Hh].
    destruct (exported_flags_backed env _ _ s Hexp) as (_ & Hjac & Hhess).
    split; [eauto | split].
    + intros Htrue. rewrite Htrue in Hj.
      destruct hj; [| discriminate].
      destruct (Hjac eq_refl) as (sm & Hsaved & Hsave & _).
      exists sm. split; [| exact Hsave].
      rewrite !in_app_iff. auto.
    + intros Htrue. rewrite Htrue in Hh.
      destruct hh; [| discriminate].
      destruct (Hhess eq_refl) as (sm & Hsaved & Hsave & _).
      exists sm. split; [| exact Hsave].
      rewrite !in_app_iff. auto.
  - rewrite (generate_run_raise env inp s Hexp). cbn [events].
    intros Hin. now apply export_never_renders in Hin.
Qed.

Lemma rendered_flags_are_backed_by_files_witness :
  exists variables out_file sm,
    In (EvRender variables out_file)
       (events (generate Scenario.healthy Scenario.x21
                  (Scenario.fresh Scenario.torch_model true)))
    /\ In (EvSave sm (jacrev_file Scenario.healthy
                        (Scenario.fresh Scenario.torch_model true)))
          (events (generate Scenario.healthy Scenario.x21
                     (Scenario.fresh Scenario.torch_model true))).
Proof.
  destruct (generate_ok_rendered Scenario.healthy Scenario.x21
              (Scenario.fresh Scenario.torch_model true) (u := tt) eq_refl)
    as [variables Hin].
  destruct (rendered_flags_are_backed_by_files _ _ _ _ _ Hin)
    as ((hj & hh & Hexp & Hj & _) & Hjac & _).
  injection Hexp as <- <-.
  destruct (Hjac Hj) as (sm & Hsaved & _).
  exists variables,
    (cpp_file Scenario.healthy (Scenario.fresh Scenario.torch_model true)),
    sm.
  split; [exact Hin | exact Hsaved].
Defined.

(** ** The steps of [build] *)

Lemma maybe_make_generation_dir_run env s :
  maybe_make_generation_dir env s =
    {| result := if path_exists env (build_dir s) then Ok tt
                 else outcome_of (makedirs_error env (build_dir s)) tt;
       self_after := s;
       events := directory_events env s |}.
Proof.
  unfold maybe_make_generation_dir, directory_events.
  rewrite run_bind_get, run_bind_call_ok.
  destruct (path_exists env (build_dir s)); reflexivity.
Qed.

(* The events of [build] before the toolchain: first the directory, then
   either the naive branch or [generate]. *)
Lemma build_sources_split env inp s :
  exists tail,
    events (build_sources env inp s) = (directory_events env s ++ tail)%list
    /\ Forall (if naive s then naive_event env s inp
               else generate_event env s (fst (shape inp)) (snd (shape inp)))
              tail
    /\ (result (maybe_make_generation_dir env s) <> Ok tt -> tail = []).
Proof.
  unfold build_sources. rewrite run_bind, maybe_make_generation_dir_run.
  cbn [result self_after events].
  destruct (if path_exists env (build_dir s) then Ok tt
            else outcome_of (makedirs_error env (build_dir s)) tt)
    as [[]|e] eqn:Hdir.
  - rewrite run_bind_get. cbn [prepend events].
    eexists. split; [reflexivity |]. split; [| intros H; now elim H].
    destruct (naive s) eqn:Hn.
    + assert (stays s (naive_event env s inp)
                (let '(rows, cols) := shape inp in
                 let inp_sym := MX_sym "inp" rows cols in
                 out_sym <- self_model_sym env inp_sym;;
                 call (EvCsGenerate (name s) inp_sym (name s ++ ".cpp"))
                   (outcome_of
                      (cs_generate_error env (name s) inp_sym
                         (name s ++ ".cpp")) tt);;
                 let dst :=
                   as_posix env (Div (build_dir s) (name s ++ ".cpp")) in
                 call (EvShutilMove (name s ++ ".cpp") dst)
                   (outcome_of
                      (shutil_move_error env (name s ++ ".cpp") dst) tt)))
        as [_ H]; [| exact H].
      rewrite (surjective_pairing (shape inp)) at 1.
      unfold self_model_sym. py_walk; simpl; auto.
    + apply (generate_stays env inp s).
  - exists []. rewrite app_nil_r. repeat split. constructor.
Qed.

(** X11. [build] begins with the build directory and is done with it at
    once: it asks whether the directory exists, creates it only if it does
    not, and never looks at it again; if creating it raises, that exception
    ends the build with nothing else attempted and the handle unchanged. *)
Theorem build_starts_with_its_directory env inp s :
  (exists tail,
     events (build env inp s) = (directory_events env s ++ tail)%list
     /\ Forall (fun ev => is_directory_event ev = false) tail)
  /\ (forall e,
        path_exists env (build_dir s) = false ->
        makedirs_error env (build_dir s) = Some e ->
        build env inp s =
          {| result := Raise e; self_after := s;
             events := [EvPathExists (build_dir s);
                        EvMakedirs (build_dir s)] |}).
Proof.
  destruct (build_sources_split env inp s) as (tail & Hev & Htail & Hstop).
  assert (Forall (fun ev => is_directory_event ev = false) tail) as Hnodir.
  { eapply Forall_impl; [| exact Htail].
    intros ev Hevt. destruct (naive s); destruct ev; try reflexivity;
      simpl in Hevt; contradiction. }
  split.
  - rewrite build_run.
    destruct (result (build_sources env inp s)).
    + exists (tail ++ [EvOsSystem (os_cmd env s)])%list.
      unfold compile_after.
      destruct (os_system env (os_cmd env s) =? 0)%Z; cbn [events];
        rewrite Hev, <- app_assoc;
        (split; [reflexivity |]);
        apply Forall_app; split; auto.
    + exists tail. cbn [events]. auto.
  - intros e Hex Hmk. rewrite build_run.
    assert (tail = []) as ->.
    { apply Hstop. rewrite maybe_make_generation_dir_run. cbn [result].
      rewrite Hex, Hmk. discriminate. }
    rewrite app_nil_r in Hev.
    assert (result (build_sources env inp s) = Raise e) as Hres.
    { unfold build_sources.
      rewrite run_bind, maybe_make_generation_dir_run. cbn [result].
      now rewrite Hex, Hmk. }
    rewrite Hres, Hev. unfold directory_events. now rewrite Hex.
Qed.

Lemma build_starts_with_its_directory_witness :
  exists tail,
    events (build Scenario.toolchain_repaired Scenario.x21
              (Scenario.fresh Scenario.torch_model true))
    = (EvPathExists (PathOf "./_l4c_generated") :: tail)%list
    /\ Forall (fun ev => is_directory_event ev = false) tail.
Proof.
  destruct (proj1 (build_starts_with_its_directory
                     Scenario.toolchain_repaired Scenario.x21
                     (Scenario.fresh Scenario.torch_model true)))
    as (tail & Hev & Htail).
  exists tail. split; [exact Hev | exact Htail].
Defined.

(** X12. A naive build stays away from torch and from the template
    renderer: it only talks to the file system, to CasADi and to the
    toolchain, and it applies the model to a fresh symbol "inp" of the
    input's shape, never to the caller's expression. *)
Theorem naive_build_skips_torch env inp s :
  naive s = true ->
  Forall (naive_build_event inp) (events (build env inp s)).
Proof.
  intros Hn.
  destruct (build_sources_split env inp s) as (tail & Hev & Htail & _).
  rewrite Hn in Htail.
  assert (Forall (naive_build_event inp) (events (build_sources env inp s)))
    as Hsrc.
  { rewrite Hev. apply Forall_app. split.
    - unfold directory_events.
      destruct (path_exists env (build_dir s)); repeat constructor.
    - eapply Forall_impl; [| exact Htail].
      intros ev Hevt. destruct ev; simpl in *; auto. }
  rewrite build_run.
  destruct (result (build_sources env inp s)); [| exact Hsrc].
  unfold compile_after.
  destruct (os_system env (os_cmd env s) =? 0)%Z; cbn [events];
    apply Forall_app; split; auto; repeat constructor.
Qed.

Lemma naive_build_skips_torch_witness :
  Forall (naive_build_event Scenario.x21)
         (events (build Scenario.healthy Scenario.x21
                    (Scenario.fresh Scenario.naive_model false))).
Proof. apply naive_build_skips_torch. reflexivity. Defined.

(** X13. The toolchain run is the last thing [build] does and decides its
    outcome: if [build] has run the toolchain at all, it ran it on the
    command line of the handle, nothing was emitted afterwards, and [build]
    returns with [_built] set if the exit status is 0 and otherwise raises
    the compilation failure that carries that very command line, leaving
    the handle as it was. *)
Theorem build_toolchain_outcome env inp s cmd :
  In (EvOsSystem cmd) (events (build env inp s)) ->
  cmd = os_cmd env s
  /\ (exists before,
        events (build env inp s) = (before ++ [EvOsSystem cmd])%list
        /\ toolchain_runs before = 0)
  /\ result (build env inp s)
     = (if (os_system env cmd =? 0)%Z then Ok tt
        else Raise (compilation_failed cmd))
  /\ self_after (build env inp s)
     = (if (os_system env cmd =? 0)%Z then set_built true s else s).
Proof.
  pose proof (build_sources_no_toolchain env inp s) as Hnone.
  assert (~ In (EvOsSystem cmd) (events (build_sources env inp s))) as Hsrc.
  { intros Hin.
    destruct (build_sources_stays env inp s) as [_ Hlog].
    unfold emits_at in Hlog. rewrite Forall_forall in Hlog.
    apply Hlog in Hin. unfold source_event in Hin.
    destruct (naive s); exact Hin. }
  rewrite build_run.
  destruct (result (build_sources env inp s)); [| intros Hin; now elim Hsrc].
  unfold compile_after.
  assert (In (EvOsSystem cmd)
             (events (build_sources env inp s)
              ++ [EvOsSystem (os_cmd env s)])%list -> cmd = os_cmd env s)
    as Hcmd.
  { intros Hin. apply in_app_or in Hin as [Hin | [Hin | []]];
      [now elim Hsrc | now injection Hin]. }
  destruct (os_system env (os_cmd env s) =? 0)%Z eqn:Hstatus;
    cbn [events result self_after]; intros Hin;
    rewrite (Hcmd Hin) in *; rewrite Hstatus; repeat split; eauto.
Qed.

Lemma build_toolchain_outcome_witness :
  result (build Scenario.toolchain_broken Scenario.x21
            (Scenario.fresh Scenario.torch_model true))
  = Raise (compilation_failed
             (os_cmd Scenario.toolchain_broken
                (Scenario.fresh Scenario.torch_model true))).
Proof.
  apply (@build_toolchain_outcome Scenario.toolchain_broken Scenario.x21
           (Scenario.fresh Scenario.torch_model true)
           (os_cmd Scenario.toolchain_broken
              (Scenario.fresh Scenario.torch_model true))).
  vm_compute. do 14 right. left. reflexivity.
Defined.

(** ** Binding what was compiled *)




(** ** Edge cases of the shape probe *)

(** X15. A model whose output on the probe is a 0-dimensional tensor cannot
    be rendered: [_generate_cpp_function_template] raises right after the
    model call, with an IndexError for a batched model (shape[-1] of an
    empty shape) and with a ValueError for an unbatched one (unpacking the
    empty slice shape[-2:]), and the renderer is not called. *)
Theorem scalar_output_is_rejected env rows cols has_jac has_hess s y :
  tensor_to_error env (device s) = None ->
  model_call env (probe s rows cols) = Ok y ->
  t_shape y = [] ->
  _generate_cpp_function_template env rows cols has_jac has_hess s =
    {| result :=
         Raise (if has_batch s
                then IndexError "tuple index out of range"
                else ValueError
                       "not enough values to unpack (expected 2, got 0)");
       self_after := s;
       events :=
         [ EvTensorTo (torch_zeros (if has_batch s then [1; rows]
                                    else [rows; cols])) (device s);
           EvModelCall (probe s rows cols) ] |}.
Proof.
  intros Ht Hy Hshape. unfold probe in *.
  unfold _generate_cpp_function_template, tensor_to, self_model.
  rewrite run_bind_get.
  destruct (has_batch s); cbv beta iota; cbn [t_shape torch_zeros];
    repeat first [ rewrite Hshape
                 | progress cbn [List.length Nat.eqb Nat.ltb Nat.leb
                                 index_last rev slice_last_two skipn
                                 unpack_2 Nat.sub]
                 | py_step ];
    reflexivity.
Qed.

Lemma scalar_output_is_rejected_witness :
  result (_generate_cpp_function_template
            (Scenario.with_model_call
               (fun x => Ok {| t_shape := []; t_device := t_device x |})
               Scenario.healthy)
            2 3 true true (Scenario.fresh Scenario.torch_model false))
  = Raise (ValueError "not enough values to unpack (expected 2, got 0)").
Proof.
  rewrite (@scalar_output_is_rejected
             (Scenario.with_model_call
                (fun x => Ok {| t_shape := []; t_device := t_device x |})
                Scenario.healthy)
             2 3 true true (Scenario.fresh Scenario.torch_model false)
             _ eq_refl eq_refl eq_refl).
  reflexivity.
Defined.

(** X16. With a batch dimension, [_generate_cpp_function_template] probes
    the model on zeros(1, rows) and renders rows_out as the last dimension
    of the output, whatever its rank, and cols_out as 1. *)
Theorem batched_output_shape env rows cols has_jac has_hess s y front n :
  has_batch s = true ->
  tensor_to_error env (device s) = None ->
  model_call env (probe s rows cols) = Ok y ->
  t_shape y = (front ++ [n])%list ->
  events (_generate_cpp_function_template env rows cols has_jac has_hess s)
  = [ EvTensorTo (torch_zeros [1; rows]) (device s);
      EvModelCall {| t_shape := [1; rows]; t_device := device s |};
      EvRender (gen_params s (model_path_of env s) rows cols n 1
                  has_jac has_hess)
               (cpp_file env s) ]
  /\ lookup "rows_out" (gen_params s (model_path_of env s) rows cols n 1
                          has_jac has_hess) = Some (VInt n)
  /\ lookup "cols_out" (gen_params s (model_path_of env s) rows cols n 1
                          has_jac has_hess) = Some (VInt 1).
Proof.
  intros Hb Ht Hy Hshape. unfold probe in *. rewrite Hb in *.
  unfold _generate_cpp_function_template, tensor_to, self_model.
  rewrite run_bind_get, Hb. cbv beta iota. cbn [t_shape torch_zeros].
  assert (index_last (front ++ [n]) = ret n) as Hlast
    by (unfold index_last; now rewrite rev_app_distr).
  repeat first [ rewrite Hshape | rewrite Hlast | py_step ].
  unfold render_casadi_c_template. repeat split.
Qed.

Lemma batched_output_shape_witness :
  events (_generate_cpp_function_template Scenario.flattening 2 1 true true
            (Scenario.fresh Scenario.torch_model true))
  = [ EvTensorTo (torch_zeros [1; 2]) "cpu";
      EvModelCall (torch_zeros [1; 2]);
      EvRender (gen_params (Scenario.fresh Scenario.torch_model true)
                  "/w/./_l4c_generated" 2 1 6 1 true true)
               "./_l4c_generated/l4casadi_f.cpp" ].
Proof.
  apply (@batched_output_shape Scenario.flattening 2 1 true true
           (Scenario.fresh Scenario.torch_model true) _ [] 6
           eq_refl eq_refl eq_refl eq_refl).
Defined.

(** X17. Every call of the template renderer in a build passes the
    handle's own metadata: model_path is model_search_path when one was
    given and otherwise the absolute build directory (what shared_lib_dir
    answers), device and name are the handle's. *)
Theorem rendered_metadata env inp s variables out_file :
  In (EvRender variables out_file) (events (build env inp s)) ->
  lookup "model_path" variables
  = Some (VStr (match _model_search_path s with
                | Some p => p
                | None => shared_lib_dir env s
                end))
  /\ lookup "device" variables = Some (VStr (device s))
  /\ lookup "name" variables = Some (VStr (name s)).
Proof.
  intros Hin.
  assert (In (EvRender variables out_file)
             (events (build_sources env inp s))) as Hsrc.
  { rewrite build_run in Hin.
    destruct (result (build_sources env inp s)); [| exact Hin].
    unfold compile_after in Hin.
    destruct (os_system env (os_cmd env s) =? 0)%Z; cbn [events] in Hin;
      apply in_app_or in Hin as [Hin | [Hin | []]]; auto; discriminate. }
  destruct (build_sources_stays env inp s) as [_ Hlog].
  unfold emits_at in Hlog. rewrite Forall_forall in Hlog.
  apply Hlog in Hsrc. unfold source_event in Hsrc.
  destruct (naive s); [contradiction |].
  destruct Hsrc as [_ (y & ro & co & hj & hh & _ & _ & ->)].
  repeat split.
Qed.

Lemma rendered_metadata_witness :
  lookup "model_path"
    (gen_params (Scenario.fresh Scenario.torch_model true)
       "/w/./_l4c_generated" 2 1 2 1 true true)
  = Some (VStr "/w/./_l4c_generated")
  /\ lookup "device"
       (gen_params (Scenario.fresh Scenario.torch_model true)
          "/w/./_l4c_generated" 2 1 2 1 true true)
     = Some (VStr "cpu")
  /\ lookup "name"
       (gen_params (Scenario.fresh Scenario.torch_model true)
          "/w/./_l4c_generated" 2 1 2 1 true true)
     = Some (VStr "l4casadi_f").
Proof.
  apply (@rendered_metadata Scenario.healthy Scenario.x21
           (Scenario.fresh Scenario.torch_model true)
           (gen_params (Scenario.fresh Scenario.torch_model true)
              "/w/./_l4c_generated" 2 1 2 1 true true)
           "./_l4c_generated/l4casadi_f.cpp").
  vm_compute. do 13 right. left. reflexivity.
Defined.

(** ** When the pipeline goes through *)

(* The template call, once the probe has answered with a usable shape. *)
Lemma template_run_ok env rows cols has_jac has_hess s y rows_out cols_out :
  tensor_to_error env (device s) = None ->
  model_call env (probe s rows cols) = Ok y ->
  shape_metadata_spec (has_batch s) (t_shape y) = Some (rows_out, cols_out) ->
  result (_generate_cpp_function_template env rows cols has_jac has_hess s)
  = outcome_of
      (render_error env
         (gen_params s (model_path_of env s) rows cols rows_out cols_out
            has_jac has_hess)
         (cpp_file env s)) tt.
Proof.
  intros Ht Hy Hspec. unfold probe in *.
  match goal with |- _ = ?rhs => set (rendering := rhs) end.
  unfold _generate_cpp_function_template, tensor_to, self_model.
  rewrite run_bind_get. unfold shape_metadata_spec in Hspec.
  destruct (has_batch s); cbv beta iota; cbn [t_shape torch_zeros].
  - assert (index_last (t_shape y) = ret rows_out
            /\ cols_out = 1) as [Hlast ->].
    { unfold index_last. destruct (rev (t_shape y)); [discriminate |].
      injection Hspec as -> <-. auto. }
    repeat first [ rewrite Hlast | py_step ]. reflexivity.
  - destruct (t_shape y) as [|n [|m l]] eqn:Hshape; [discriminate | |].
    + injection Hspec as <- <-.
      repeat first [ rewrite Hshape
                   | progress cbn [List.length Nat.eqb index_0]
                   | py_step ].
      reflexivity.
    + assert (exists front, n :: m :: l = (front ++ [rows_out; cols_out])%list)
        as [front Hfront].
      { destruct (rev (n :: m :: l)) as [|c [|r tl]] eqn:Hrev;
          try discriminate.
        injection Hspec as <- <-. exists (rev tl).
        rewrite <- (rev_involutive (n :: m :: l)), Hrev. simpl.
        now rewrite <- app_assoc. }
      assert ((List.length (n :: m :: l) =? 1)%nat = false) as Hlen
        by reflexivity.
      repeat first [ rewrite Hshape
                   | rewrite Hlen
                   | rewrite Hfront, slice_last_two_app
                   | progress cbn [unpack_2]
                   | py_step ].
      reflexivity.
Qed.

(** X18. Derivatives degrade, the pipeline does not: on a fresh kind of
    handle (non-naive, unbuilt, unbound) and an admissible input, [forward]
    returns the external function of the compiled library applied to the
    input, with the handle built and bound, as soon as the mandatory steps
    go through: the build directory, the probe, the forward trace, the
    Jacobian capture if requested, a model output of rank at least 1, the
    renderer, the toolchain, cs.external and the call.  Whether the Hessian
    can be captured, and whether either derivative can be scripted, traced
    or saved, makes no difference to that. *)
Theorem forward_succeeds_despite_missing_derivatives
    env inp s y rows_out cols_out :
  naive s = false ->
  _built s = false ->
  _cs_fun s = None ->
  (has_batch s = true -> snd (shape inp) = 1) ->
  (path_exists env (build_dir s) = false ->
   makedirs_error env (build_dir s) = None) ->
  tensor_to_error env (device s) = None ->
  forward_trace_error env s (fst (shape inp)) (snd (shape inp)) = None ->
  (_with_jacobian s = true ->
   make_fx_error env Jacrev (probe s (fst (shape inp)) (snd (shape inp)))
   = None) ->
  model_call env (probe s (fst (shape inp)) (snd (shape inp))) = Ok y ->
  shape_metadata_spec (has_batch s) (t_shape y) = Some (rows_out, cols_out) ->
  (forall variables, render_error env variables (cpp_file env s) = None) ->
  os_system env (os_cmd env s) = 0%Z ->
  cs_external_error env (name s) (lib_file env s) = None ->
  cs_call_error env (lib_function env s) inp = None ->
  result (forward env inp s) = Ok (ExternalOut (lib_function env s) inp)
  /\ self_after (forward env inp s)
     = set_cs_fun (Some (lib_function env s)) (set_built true s).
Proof.
  intros Hn Hb Hf Hvec Hdir Ht Hfwd Hjac Hy Hspec Hrender Hgcc Hext Hcall.
  pose proof (export_flags_run env _ _ s Ht Hfwd Hjac) as [Hflags _].
  assert (result (generate env inp s) = Ok tt) as Hgen.
  { rewrite (generate_run_ok env inp s Hflags). cbn [prepend result].
    rewrite (template_run_ok env _ _ _ _ s Ht Hy Hspec), Hrender.
    reflexivity. }
  assert (result (build_sources env inp s) = Ok tt) as Hsrc.
  { unfold build_sources.
    rewrite run_bind, maybe_make_generation_dir_run.
    cbn [result self_after events].
    assert ((if path_exists env (build_dir s) then Ok tt
             else outcome_of (makedirs_error env (build_dir s)) tt)
            = Ok tt) as ->
      by (destruct (path_exists env (build_dir s));
          [| rewrite (Hdir eq_refl)]; reflexivity).
    rewrite run_bind_get, Hn. exact Hgen. }
  assert (result (build env inp s) = Ok tt) as Hbuild.
  { rewrite build_run, Hsrc. unfold compile_after. now rewrite Hgcc. }
  rewrite (forward_unbuilt_run env inp s Hn Hb
             (vector_input_passes s inp Hvec)), Hbuild.
  cbn [prepend result self_after].
  rewrite (forward_built_run env inp (set_built true s) Hn eq_refl
             (vector_input_passes s inp Hvec)).
  unfold bound_evaluation. cbn [_cs_fun set_built name].
  change (lib_file env (set_built true s)) with (lib_file env s).
  change (lib_function env (set_built true s)) with (lib_function env s).
  rewrite Hf, Hext, Hcall. split; reflexivity.
Qed.

Lemma forward_succeeds_despite_missing_derivatives_witness :
  result (forward Scenario.jacobian_unserializable Scenario.x21
            (Scenario.fresh Scenario.torch_model true))
  = Ok (ExternalOut
          (lib_function Scenario.jacobian_unserializable
             (Scenario.fresh Scenario.torch_model true))
          Scenario.x21).
Proof.
  apply (@forward_succeeds_despite_missing_derivatives
           Scenario.jacobian_unserializable Scenario.x21
           (Scenario.fresh Scenario.torch_model true)
           {| t_shape := [1; 2]; t_device := "cpu" |} 2 1
           eq_refl eq_refl eq_refl (fun _ => eq_refl) (fun _ => eq_refl)
           eq_refl eq_refl (fun _ => eq_refl) eq_refl eq_refl
           (fun _ => eq_refl) eq_refl eq_refl eq_refl).
Defined.

(** * The runs of [forward], [build], [generate] and the export, in full *)

(** ** Evaluation of an unbuilt handle *)

(** C3 (as the code has it). [forward] on a non-naive handle that has not
    been built runs [build] on the input first.  If the build raises,
    [forward] ends there with the same exception, the handle unchanged.  If
    the build returns, the handle is built and [forward] goes on to bind
    the library build_dir / lib<name><ending> under the handle's name
    (unless a function is already held), keeps the function on the handle
    and applies it to the input; what it then returns or raises is what
    cs.external and the call return or raise.  The "not built yet"
    RuntimeError belongs to [_load_built_library_as_external_cs_fun] called
    on an unbuilt handle, where it is raised before anything else happens;
    on a built handle that method goes straight to cs.external. *)
Theorem C3_forward_builds_an_unbuilt_handle env inp s :
  naive s = false ->
  _built s = false ->
  (has_batch s = true -> snd (shape inp) = 1) ->
  forward env inp s =
    match result (build env inp s) with
    | Ok _ =>
        prepend (events (build env inp s))
          (match _cs_fun s with
           | Some f =>
               {| result := outcome_of (cs_call_error env f inp)
                                       (ExternalOut f inp);
                  self_after := set_built true s;
                  events := [EvCsCall f inp] |}
           | None =>
               match cs_external_error env (name s) (lib_file env s) with
               | Some e =>
                   {| result := Raise e; self_after := set_built true s;
                      events := [EvCsExternal (name s) (lib_file env s)] |}
               | None =>
                   {| result :=
                        outcome_of
                          (cs_call_error env (lib_function env s) inp)
                          (ExternalOut (lib_function env s) inp);
                      self_after :=
                        set_cs_fun (Some (lib_function env s))
                          (set_built true s);
                      events :=
                        [ EvCsExternal (name s) (lib_file env s);
                          EvCsCall (lib_function env s) inp ] |}
               end
           end)
    | Raise e =>
        {| result := Raise e; self_after := s;
           events := events (build env inp s) |}
    end
  /\ _load_built_library_as_external_cs_fun env s =
       {| result := Raise (RuntimeError not_built_msg);
          self_after := s; events := [] |}
  /\ _load_built_library_as_external_cs_fun env (set_built true s) =
       {| result := outcome_of
                      (cs_external_error env (name s) (lib_file env s)) tt;
          self_after :=
            match cs_external_error env (name s) (lib_file env s) with
            | Some _ => set_built true s
            | None => set_cs_fun (Some (lib_function env s)) (set_built true s)
            end;
          events := [EvCsExternal (name s) (lib_file env s)] |}.
Proof.
  intros Hn Hb Hvec.
  pose proof (vector_input_passes s inp Hvec) as Hcheck.
  split; [| split].
  - rewrite (forward_unbuilt_run env inp s Hn Hb Hcheck).
    destruct (result (build env inp s)); [| reflexivity].
    rewrite (forward_built_run env inp (set_built true s) Hn eq_refl Hcheck).
    reflexivity.
  - unfold _load_built_library_as_external_cs_fun.
    rewrite run_bind_get, Hb. cbn [negb when]. apply run_bind_raise.
  - rewrite (load_built_run env (set_built true s) eq_refl).
    change (lib_file env (set_built true s)) with (lib_file env s).
    change (lib_function env (set_built true s)) with (lib_function env s).
    cbn [name set_built].
    destruct (cs_external_error env (name s) (lib_file env s)); reflexivity.
Qed.

Lemma C3_witness :
  forward Scenario.healthy Scenario.x21
    (Scenario.fresh Scenario.torch_model true)
  = prepend
      (events (build Scenario.healthy Scenario.x21
                 (Scenario.fresh Scenario.torch_model true)))
      {| result :=
           Ok (ExternalOut
                 (lib_function Scenario.healthy
                    (Scenario.fresh Scenario.torch_model true))
                 Scenario.x21);
         self_after :=
           set_cs_fun
             (Some (lib_function Scenario.healthy
                      (Scenario.fresh Scenario.torch_model true)))
             (set_built true (Scenario.fresh Scenario.torch_model true));
         events :=
           [ EvCsExternal "l4casadi_f" "./_l4c_generated/libl4casadi_f.so";
             EvCsCall (lib_function Scenario.healthy
                         (Scenario.fresh Scenario.torch_model true))
                      Scenario.x21 ] |}.
Proof.
  rewrite (proj1 (C3_forward_builds_an_unbuilt_handle Scenario.healthy
                    Scenario.x21 (Scenario.fresh Scenario.torch_model true)
                    eq_refl eq_refl (fun _ => eq_refl))).
  reflexivity.
Defined.

(** ** Builds that fail, and the builds after them *)

(* The statements of [build] before the toolchain, for a handle that is
   not naive: the directory, then [generate]. *)
Lemma build_sources_generate_run env inp s :
  naive s = false ->
  build_sources env inp s =
    match (if path_exists env (build_dir s) then Ok tt
           else outcome_of (makedirs_error env (build_dir s)) tt) with
    | Raise e =>
        {| result := Raise e; self_after := s;
           events := directory_events env s |}
    | Ok _ => prepend (directory_events env s) (generate env inp s)
    end.
Proof.
  intros Hn. unfold build_sources.
  rewrite run_bind, maybe_make_generation_dir_run.
  cbn [result self_after events].
  destruct (if path_exists env (build_dir s) then Ok tt
            else outcome_of (makedirs_error env (build_dir s)) tt)
    as [[]|e]; [| reflexivity].
  now rewrite run_bind_get, Hn.
Qed.

(** C5 (as the code has it). There is no failed state.  A build that raises,
    a compilation failure included, leaves the handle exactly as it was, so
    still unbuilt.  One build runs the toolchain at most once.  A build that
    returns has run the toolchain exactly once, as its last step, on the
    handle's command line, with exit status 0, and has set [_built]; a
    build whose toolchain run exits with another status raises the
    compilation failure carrying that command line.  Every build that
    returns has gone through the whole pipeline: for a handle that is not
    naive, the directory, then all of [generate], which returned, then the
    toolchain.  After a build that
    raised, a later build on the same handle is a first build again under
    the world as it is then; and [forward] on the still unbuilt handle runs
    that build itself, ends with its exception if it raises, and otherwise
    goes on with the handle built. *)
Theorem C5_failed_build_leaves_handle_unbuilt env inp s :
  (forall e, result (build env inp s) = Raise e ->
             self_after (build env inp s) = s)
  /\ toolchain_runs (events (build env inp s)) <= 1
  /\ (result (build env inp s) = Ok tt ->
      self_after (build env inp s) = set_built true s
      /\ os_system env (os_cmd env s) = 0%Z
      /\ exists before,
           events (build env inp s)
           = (before ++ [EvOsSystem (os_cmd env s)])%list
           /\ toolchain_runs before = 0)
  /\ (toolchain_runs (events (build env inp s)) = 1 ->
      os_system env (os_cmd env s) <> 0%Z ->
      result (build env inp s) = Raise (compilation_failed (os_cmd env s))
      /\ self_after (build env inp s) = s)
  /\ (naive s = false ->
      result (build env inp s) = Ok tt ->
      result (generate env inp s) = Ok tt
      /\ events (build env inp s)
         = (directory_events env s ++ events (generate env inp s)
            ++ [EvOsSystem (os_cmd env s)])%list)
  /\ (forall e env' inp',
        result (build env inp s) = Raise e ->
        build env' inp' (self_after (build env inp s)) = build env' inp' s
        /\ (naive s = false ->
            _built s = false ->
            (has_batch s = true -> snd (shape inp') = 1) ->
            forward env' inp' (self_after (build env inp s)) =
              match result (build env' inp' s) with
              | Ok _ =>
                  prepend (events (build env' inp' s))
                          (forward env' inp' (set_built true s))
              | Raise e' =>
                  {| result := Raise e'; self_after := s;
                     events := events (build env' inp' s) |}
              end
            /\ (result (build env' inp' s) = Ok tt ->
                _built (self_after
                          (forward env' inp' (self_after (build env inp s))))
                = true))).
Proof.
  split; [| split; [| split; [| split; [| split]]]].
  - intros e. apply build_raise_keeps_handle.
  - apply build_toolchain_once.
  - intros Hok. split; [exact (build_ok_built _ _ _ Hok) |].
    destruct (build_ok_compiled _ _ _ Hok) as [H0 Hev].
    split; [exact H0 |].
    exists (events (build_sources env inp s)).
    split; [exact Hev | apply build_sources_no_toolchain].
  - pose proof (build_sources_no_toolchain env inp s) as Hnone.
    rewrite build_run.
    destruct (result (build_sources env inp s)).
    + unfold compile_after.
      destruct (Z.eqb_spec (os_system env (os_cmd env s)) 0);
        cbn [events result self_after]; intros _ Hstatus;
        [contradiction | auto].
    + cbn [events]. rewrite Hnone. discriminate.
  - intros Hn Hok.
    destruct (build_ok_compiled _ _ _ Hok) as [_ Hev]. rewrite Hev.
    rewrite build_run in Hok.
    rewrite (build_sources_generate_run env inp s Hn) in *.
    destruct (if path_exists env (build_dir s) then Ok tt
              else outcome_of (makedirs_error env (build_dir s)) tt)
      as [[]|e]; [| discriminate].
    cbn [prepend result events] in *.
    destruct (result (generate env inp s)) as [[]|e]; [| discriminate].
    split; [reflexivity | now rewrite <- app_assoc].
  - intros e env' inp' Hraise.
    rewrite (build_raise_keeps_handle _ _ _ Hraise).
    split; [reflexivity |].
    intros Hn Hb Hvec.
    pose proof (vector_input_passes s inp' Hvec) as Hcheck.
    rewrite (forward_unbuilt_run env' inp' s Hn Hb Hcheck).
    split; [reflexivity |].
    intros Hok. rewrite Hok. cbn [prepend self_after].
    rewrite (forward_built_run env' inp' (set_built true s) Hn eq_refl
               Hcheck).
    destruct (bound_evaluation_state env' inp' (set_built true s))
      as [-> | [_ ->]]; reflexivity.
Qed.

Lemma C5_witness :
  self_after (build Scenario.toolchain_broken Scenario.x21
                (Scenario.fresh Scenario.torch_model true))
  = Scenario.fresh Scenario.torch_model true
  /\ _built
       (self_after
          (forward Scenario.toolchain_repaired Scenario.x21
             (self_after (build Scenario.toolchain_broken Scenario.x21
                            (Scenario.fresh Scenario.torch_model true)))))
     = true.
Proof.
  destruct (C5_failed_build_leaves_handle_unbuilt Scenario.toolchain_broken
              Scenario.x21 (Scenario.fresh Scenario.torch_model true))
    as (Hkeep & _ & _ & _ & _ & Hlater).
  assert (result (build Scenario.toolchain_broken Scenario.x21
                    (Scenario.fresh Scenario.torch_model true))
          = Raise (compilation_failed
                     (os_cmd Scenario.toolchain_broken
                        (Scenario.fresh Scenario.torch_model true))))
    as Hfailed by (vm_compute; reflexivity).
  split.
  - exact (Hkeep _ Hfailed).
  - apply (proj2 (proj2 (Hlater _ Scenario.toolchain_repaired Scenario.x21
                           Hfailed)
                    eq_refl eq_refl (fun _ => eq_refl))).
    vm_compute. reflexivity.
Defined.

(** ** Naive handles *)




(** ** The export, trace by trace *)

Lemma run_eta {A} (r : Run A) :
  r = {| result := result r; self_after := self_after r;
         events := events r |}.
Proof. destruct r; reflexivity. Qed.

(* The forward trace is one torch.jit.trace and one save: what either
   raises is raised by the export. *)
Lemma export_forward_failure_run env rows cols s e :
  tensor_to_error env (device s) = None ->
  forward_trace_error env s rows cols = Some e ->
  export_torch_traces env rows cols s =
    {| result := Raise e; self_after := s;
       events :=
         EvTensorTo (if has_batch s then torch_zeros [1; rows]
                     else torch_zeros [rows; cols]) (device s)
         :: EvJitTrace UserModel (probe s rows cols)
         :: (if is_none (jit_trace_error env UserModel (probe s rows cols))
             then [EvSave (Traced UserModel (probe s rows cols))
                     (forward_file env s)]
             else []) |}.
Proof.
  intros Ht Hf. unfold forward_trace_error in Hf.
  unfold export_torch_traces, tensor_to, torch_jit_trace, save, forward_file.
  rewrite run_bind_get, d_inp_is_probe.
  destruct (jit_trace_error env UserModel (probe s rows cols)) eqn:Hj.
  - injection Hf as ->. repeat py_step. reflexivity.
  - repeat py_step. reflexivity.
Qed.

(* The export that got through its mandatory steps, in one equation. *)
Lemma export_run env rows cols s :
  tensor_to_error env (device s) = None ->
  forward_trace_error env s rows cols = None ->
  (_with_jacobian s = true ->
   make_fx_error env Jacrev (probe s rows cols) = None) ->
  export_torch_traces env rows cols s =
    {| result :=
         Ok (_with_jacobian s
             && serialized env (FxGraph Jacrev (probe s rows cols))
                  (probe s rows cols) (jacrev_file env s),
             _with_hessian s
             && is_none (make_fx_error env Hessian (probe s rows cols))
             && serialized env (FxGraph Hessian (probe s rows cols))
                  (probe s rows cols) (hess_file env s));
       self_after := s;
       events :=
         ([ EvTensorTo (if has_batch s then torch_zeros [1; rows]
                        else torch_zeros [rows; cols]) (device s);
            EvJitTrace UserModel (probe s rows cols);
            EvSave (Traced UserModel (probe s rows cols))
              (forward_file env s) ]
          ++ (if _with_jacobian s
              then EvMakeFx Jacrev (probe s rows cols)
                   :: two_tier_log env (FxGraph Jacrev (probe s rows cols))
                        (probe s rows cols) (jacrev_file env s)
              else [])
          ++ (if _with_hessian s
              then EvMakeFx Hessian (probe s rows cols)
                   :: (if is_none
                            (make_fx_error env Hessian (probe s rows cols))
                       then two_tier_log env
                              (FxGraph Hessian (probe s rows cols))
                              (probe s rows cols) (hess_file env s)
                       else [])
              else []))%list |}.
Proof.
  intros Ht Hf Hjac.
  rewrite (run_eta (export_torch_traces env rows cols s)).
  destruct (export_flags_run env rows cols s Ht Hf Hjac) as [-> ->].
  now rewrite (export_events env rows cols s Ht Hf Hjac).
Qed.

(** C2 (as the code has it). The two-tier fallback is what
    [_jit_compile_and_save] does: it attempts the scripted form first, the
    traced form only if compiling or saving the script raised, never
    raises, and answers whether one of the two went through.  Only the
    Jacobian and Hessian graphs go through it.  The forward trace is taken
    and saved by torch.jit.trace alone: the wrapped model is never
    scripted, in no run of the export; what that single attempt raises is
    raised by [export_torch_traces], right there; and when it goes through
    (the Jacobian capture too, if requested) the export returns, its log
    being the forward trace and its save, then for each requested
    derivative the capture followed by the two-tier serialization of the
    captured graph, and each flag saying that the derivative was requested,
    captured and serialized by one of the two tiers. *)
Theorem C2_two_tier_fallback_is_for_derivatives env rows cols s :
  let x := probe s rows cols in
  let moved :=
    EvTensorTo (if has_batch s then torch_zeros [1; rows]
                else torch_zeros [rows; cols]) (device s) in
  (forall m file x s',
      _jit_compile_and_save env m file x s' =
        {| result :=
             Ok (is_none (ts_compile_error env m)
                 && is_none (save_error env (Scripted m) file)
                 || is_none (jit_trace_error env m x)
                    && is_none (save_error env (Traced m x) file));
           self_after := s';
           events :=
             (EvTsCompile m
              :: (if is_none (ts_compile_error env m)
                  then [EvSave (Scripted m) file] else []))
             ++ (if is_none (ts_compile_error env m)
                    && is_none (save_error env (Scripted m) file)
                 then []
                 else EvJitTrace m x
                      :: (if is_none (jit_trace_error env m x)
                          then [EvSave (Traced m x) file] else []))
        |}
      /\ result (_jit_compile_and_save env m file x s')
         = Ok (serialized env m x file))
  /\ Forall (fun ev => ev <> EvTsCompile UserModel
                       /\ forall file, ev <> EvSave (Scripted UserModel) file)
            (events (export_torch_traces env rows cols s))
  /\ (tensor_to_error env (device s) = None ->
      forall e,
        forward_trace_error env s rows cols = Some e ->
        export_torch_traces env rows cols s =
          {| result := Raise e; self_after := s;
             events :=
               moved :: EvJitTrace UserModel x
               :: (if is_none (jit_trace_error env UserModel x)
                   then [EvSave (Traced UserModel x) (forward_file env s)]
                   else []) |})
  /\ (tensor_to_error env (device s) = None ->
      forward_trace_error env s rows cols = None ->
      (_with_jacobian s = true -> make_fx_error env Jacrev x = None) ->
      export_torch_traces env rows cols s =
        {| result :=
             Ok (_with_jacobian s
                 && serialized env (FxGraph Jacrev x) x (jacrev_file env s),
                 _with_hessian s
                 && is_none (make_fx_error env Hessian x)
                 && serialized env (FxGraph Hessian x) x (hess_file env s));
           self_after := s;
           events :=
             [ moved; EvJitTrace UserModel x;
               EvSave (Traced UserModel x) (forward_file env s) ]
             ++ (if _with_jacobian s
                 then EvMakeFx Jacrev x
                      :: events (_jit_compile_and_save env (FxGraph Jacrev x)
                                   (jacrev_file env s) x s)
                 else [])
             ++ (if _with_hessian s
                 then EvMakeFx Hessian x
                      :: (if is_none (make_fx_error env Hessian x)
                          then events
                                 (_jit_compile_and_save env
                                    (FxGraph Hessian x)
                                    (hess_file env s) x s)
                          else [])
                 else []) |}).
Proof.
  intros x moved. split; [| split; [| split]].
  - intros m file x' s'. rewrite jit_compile_and_save_run.
    unfold serialized, scripted_ok, traced_ok, scripted_attempt,
      traced_attempt. auto.
  - destruct (export_requested_events env rows cols s) as [_ Hlog].
    unfold emits_at in Hlog. eapply Forall_impl; [| exact Hlog].
    intros ev Hev. split; [intros -> | intros file ->]; exact Hev.
  - intros Ht e Hf. exact (export_forward_failure_run env rows cols s Ht Hf).
  - intros Ht Hf Hjac. rewrite !jit_compile_and_save_run. cbn [events].
    exact (export_run env rows cols s Ht Hf Hjac).
Qed.

Lemma C2_witness :
  export_torch_traces Scenario.forward_untraceable 2 1
    (Scenario.fresh Scenario.torch_model true)
  = {| result := Raise (ForeignError "torch.jit.trace");
       self_after := Scenario.fresh Scenario.torch_model true;
       events := [ EvTensorTo (torch_zeros [1; 2]) "cpu";
                   EvJitTrace UserModel (torch_zeros [1; 2]) ] |}
  /\ export_torch_traces Scenario.jacobian_unserializable 2 1
       (Scenario.fresh Scenario.torch_model true)
     = {| result := Ok (false, true);
          self_after := Scenario.fresh Scenario.torch_model true;
          events :=
            [ EvTensorTo (torch_zeros [1; 2]) "cpu";
              EvJitTrace UserModel (torch_zeros [1; 2]);
              EvSave (Traced UserModel (torch_zeros [1; 2]))
                "./_l4c_generated/l4casadi_f_forward.pt";
              EvMakeFx Jacrev (torch_zeros [1; 2]);
              EvTsCompile (FxGraph Jacrev (torch_zeros [1; 2]));
              EvJitTrace (FxGraph Jacrev (torch_zeros [1; 2]))
                (torch_zeros [1; 2]);
              EvMakeFx Hessian (torch_zeros [1; 2]);
              EvTsCompile (FxGraph Hessian (torch_zeros [1; 2]));
              EvSave (Scripted (FxGraph Hessian (torch_zeros [1; 2])))
                "./_l4c_generated/l4casadi_f_hess.pt" ] |}.
Proof.
  split.
  - exact (proj1 (proj2 (proj2
             (C2_two_tier_fallback_is_for_derivatives
                Scenario.forward_untraceable 2 1
                (Scenario.fresh Scenario.torch_model true))))
             eq_refl (ForeignError "torch.jit.trace") eq_refl).
  - exact (proj2 (proj2 (proj2
             (C2_two_tier_fallback_is_for_derivatives
                Scenario.jacobian_unserializable 2 1
                (Scenario.fresh Scenario.torch_model true))))
             eq_refl eq_refl (fun _ => eq_refl)).
Defined.

(** ** Shape metadata, for every input that gets through *)

(* The template call, once the probe has answered with a usable shape. *)
Lemma template_run_spec env rows cols has_jac has_hess s y rows_out cols_out :
  tensor_to_error env (device s) = None ->
  model_call env (probe s rows cols) = Ok y ->
  shape_metadata_spec (has_batch s) (t_shape y) = Some (rows_out, cols_out) ->
  _generate_cpp_function_template env rows cols has_jac has_hess s =
    {| result :=
         outcome_of
           (render_error env
              (gen_params s (model_path_of env s) rows cols rows_out cols_out
                 has_jac has_hess)
              (cpp_file env s)) tt;
       self_after := s;
       events :=
         [ EvTensorTo (if has_batch s then torch_zeros [1; rows]
                       else torch_zeros [rows; cols]) (device s);
           EvModelCall (probe s rows cols);
           EvRender
             (gen_params s (model_path_of env s) rows cols rows_out cols_out
                has_jac has_hess)
             (cpp_file env s) ] |}.
Proof.
  intros Ht Hy Hspec. unfold probe in *.
  match goal with
  | |- _ = {| result := ?res; self_after := _; events := _ |} =>
      set (rendering := res)
  end.
  unfold _generate_cpp_function_template, tensor_to, self_model.
  rewrite run_bind_get. unfold shape_metadata_spec in Hspec.
  destruct (has_batch s); cbv beta iota; cbn [t_shape torch_zeros].
  - assert (index_last (t_shape y) = ret rows_out
            /\ cols_out = 1) as [Hlast ->].
    { unfold index_last. destruct (rev (t_shape y)); [discriminate |].
      injection Hspec as -> <-. auto. }
    repeat first [ rewrite Hlast | py_step ]. reflexivity.
  - destruct (t_shape y) as [|n [|m l]] eqn:Hshape; [discriminate | |].
    + injection Hspec as <- <-.
      repeat first [ rewrite Hshape
                   | progress cbn [List.length Nat.eqb index_0]
                   | py_step ].
      reflexivity.
    + assert (exists front, n :: m :: l = (front ++ [rows_out; cols_out])%list)
        as [front Hfront].
      { destruct (rev (n :: m :: l)) as [|c [|r tl]] eqn:Hrev;
          try discriminate.
        injection Hspec as <- <-. exists (rev tl).
        rewrite <- (rev_involutive (n :: m :: l)), Hrev. simpl.
        now rewrite <- app_assoc. }
      assert ((List.length (n :: m :: l) =? 1)%nat = false) as Hlen
        by reflexivity.
      repeat first [ rewrite Hshape
                   | rewrite Hlen
                   | rewrite Hfront, slice_last_two_app
                   | progress cbn [unpack_2]
                   | py_step ].
      reflexivity.
Qed.

(** C8. [generate] takes rows_in and cols_in from the shape (r, c) of the
    symbolic input, unchanged; every concrete evaluation of the model is on
    the zero tensor of shape (r, c), or of shape (1, r) when the model
    expects a batch dimension; rows_out and cols_out are the shape metadata
    of the output of that evaluation; a [generate] that returns has
    rendered.  And the metadata is there for every input that gets through
    the export: when the traces have been exported with flags (hj, hh) and
    the model answers the zero tensor with an output y, [generate] ends by
    moving the zero tensor to the device, evaluating the model on it and
    calling the renderer, once, with rows_in = r, cols_in = c and
    - rows_out = the last dimension of y, cols_out = 1, for a batched
      model;
    - rows_out = n, cols_out = 1, for an output of shape (n,) of a model
      that is not batched;
    - rows_out, cols_out = the last two dimensions of y otherwise;
    what [generate] then returns or raises is what the renderer does. *)
Theorem C8_shape_probe env inp s :
  let r := fst (shape inp) in
  let c := snd (shape inp) in
  let zeros :=
    {| t_shape := if has_batch s then [1; r] else [r; c];
       t_device := device s |} in
  let log := events (generate env inp s) in
  (forall x, In (EvModelCall x) log -> x = zeros)
  /\ (forall variables out_file,
        In (EvRender variables out_file) log ->
        lookup "rows_in" variables = Some (VInt r)
        /\ lookup "cols_in" variables = Some (VInt c)
        /\ exists y rows_out cols_out,
             model_call env zeros = Ok y
             /\ shape_metadata_spec (has_batch s) (t_shape y)
                = Some (rows_out, cols_out)
             /\ lookup "rows_out" variables = Some (VInt rows_out)
             /\ lookup "cols_out" variables = Some (VInt cols_out))
  /\ (result (generate env inp s) = Ok tt ->
      exists variables out_file, In (EvRender variables out_file) log)
  /\ (forall hj hh y rows_out cols_out,
        result (export_torch_traces env r c s) = Ok (hj, hh) ->
        model_call env zeros = Ok y ->
        (has_batch s = true
         /\ (exists front, t_shape y = (front ++ [rows_out])%list)
         /\ cols_out = 1)
        \/ (has_batch s = false /\ t_shape y = [rows_out] /\ cols_out = 1)
        \/ (has_batch s = false
            /\ exists front, t_shape y = (front ++ [rows_out; cols_out])%list) ->
        let variables :=
          [ ("model_path",
               VStr match _model_search_path s with
                    | None => as_posix env (Absolute (build_dir s))
                    | Some p => p
                    end);
            ("device", VStr (device s));
            ("name", VStr (name s));
            ("rows_in", VInt r);
            ("cols_in", VInt c);
            ("rows_out", VInt rows_out);
            ("cols_out", VInt cols_out);
            ("has_jac", VStr (if hj then "true" else "false"));
            ("has_hess", VStr (if hh then "true" else "false"));
            ("model_expects_batch_dim",
               VStr (if has_batch s then "true" else "false")) ] in
        let out_file :=
          as_posix env (Div (build_dir s) (name s ++ ".cpp")) in
        generate env inp s =
          {| result := outcome_of (render_error env variables out_file) tt;
             self_after := s;
             events :=
               (events (export_torch_traces env r c s)
                ++ (if negb hj && _with_jacobian s
                    then [EvPrint jac_diagnostic] else [])
                ++ (if negb hh && _with_hessian s
                    then [EvPrint hess_diagnostic] else [])
                ++ [ EvTensorTo (if has_batch s then torch_zeros [1; r]
                                 else torch_zeros [r; c]) (device s);
                     EvModelCall zeros;
                     EvRender variables out_file ])%list |}).
Proof.
  intros r c zeros log.
  destruct (generate_stays env inp s) as [_ Hlog].
  unfold emits_at in Hlog. rewrite Forall_forall in Hlog.
  split; [| split; [| split]].
  - intros x Hin. exact (Hlog _ Hin).
  - intros variables out_file Hin.
    exact (rendered_shapes (Hlog _ Hin)).
  - intros Hok. apply generate_ok_rendered in Hok as [variables Hin].
    eauto.
  - intros hj hh y rows_out cols_out Hexp Hy Hshape variables out_file.
    assert (shape_metadata_spec (has_batch s) (t_shape y)
            = Some (rows_out, cols_out)) as Hspec.
    { destruct Hshape as [(-> & [front ->] & ->)
                         | [(-> & -> & ->) | (-> & [front ->])]].
      - unfold shape_metadata_spec. now rewrite rev_app_distr.
      - reflexivity.
      - unfold shape_metadata_spec. rewrite rev_app_distr.
        destruct front as [|a [|b front]]; reflexivity. }
    destruct (export_ok_inv env r c s Hexp) as (Ht & _ & _).
    rewrite (generate_run_ok env inp s Hexp).
    fold r c.
    rewrite (template_run_spec env r c hj hh s Ht Hy Hspec).
    unfold prepend. cbn [result self_after events].
    rewrite <- !app_assoc. reflexivity.
Qed.

Lemma C8_witness :
  (result (generate Scenario.healthy Scenario.x21
             (Scenario.fresh Scenario.torch_model true)) = Ok tt
   /\ In (EvRender
            (gen_params (Scenario.fresh Scenario.torch_model true)
               "/w/./_l4c_generated" 2 1 2 1 true true)
            "./_l4c_generated/l4casadi_f.cpp")
         (events (generate Scenario.healthy Scenario.x21
                    (Scenario.fresh Scenario.torch_model true))))
  /\ (result (generate Scenario.healthy Scenario.x23
                (Scenario.fresh Scenario.torch_model false)) = Ok tt
      /\ In (EvRender
               (gen_params (Scenario.fresh Scenario.torch_model false)
                  "/w/./_l4c_generated" 2 3 2 3 true true)
               "./_l4c_generated/l4casadi_f.cpp")
            (events (generate Scenario.healthy Scenario.x23
                       (Scenario.fresh Scenario.torch_model false))))
  /\ (result (generate Scenario.flattening Scenario.x23
                (Scenario.fresh Scenario.torch_model false)) = Ok tt
      /\ In (EvRender
               (gen_params (Scenario.fresh Scenario.torch_model false)
                  "/w/./_l4c_generated" 2 3 6 1 true true)
               "./_l4c_generated/l4casadi_f.cpp")
            (events (generate Scenario.flattening Scenario.x23
                       (Scenario.fresh Scenario.torch_model false)))).
Proof.
  split; [| split].
  - rewrite (proj2 (proj2 (proj2
               (C8_shape_probe Scenario.healthy Scenario.x21
                  (Scenario.fresh Scenario.torch_model true))))
               true true {| t_shape := [1; 2]; t_device := "cpu" |} 2 1
               eq_refl eq_refl
               (or_introl (conj eq_refl
                             (conj (ex_intro _ [1] eq_refl) eq_refl)))).
    split; [reflexivity |]. vm_compute. do 11 right. left. reflexivity.
  - rewrite (proj2 (proj2 (proj2
               (C8_shape_probe Scenario.healthy Scenario.x23
                  (Scenario.fresh Scenario.torch_model false))))
               true true {| t_shape := [2; 3]; t_device := "cpu" |} 2 3
               eq_refl eq_refl
               (or_intror (or_intror
                             (conj eq_refl (ex_intro _ [] eq_refl))))).
    split; [reflexivity |]. vm_compute. do 11 right. left. reflexivity.
  - rewrite (proj2 (proj2 (proj2
               (C8_shape_probe Scenario.flattening Scenario.x23
                  (Scenario.fresh Scenario.torch_model false))))
               true true {| t_shape := [6]; t_device := "cpu" |} 6 1
               eq_refl eq_refl
               (or_intror (or_introl
                             (conj eq_refl (conj eq_refl eq_refl))))).
    split; [reflexivity |]. vm_compute. do 11 right. left. reflexivity.
Defined.
